(** * Hoarding management (hoad.py): record store, filters and bookings

    A shallow embedding of the data-handling code of [hoad.py]: the CSV
    backed listing store ([load_data], [save_data]), the booking store
    ([load_bookings], [save_bookings], [booking_form]) and the three data
    operations of [main] (the filter of "View Hoardings", "Add New" and
    "Edit Existing").

    Python values are dynamically typed, so a DataFrame cell is a tagged
    value ([cell]); a DataFrame row is a finite map from column names to
    cells; functions that can raise return a [result].  The two CSV files
    are explicit state ([disk]); the Streamlit widgets are inputs of the
    functions and the messages they show are outputs ([notice]). *)

From Stdlib Require Import ZArith Ascii String.
From stdpp Require Import base option list strings gmap fin_maps pretty.

Local Open Scope string_scope.
Local Open Scope list_scope.

(* stdpp's solvers clear hypotheses by name; the note they print is noise. *)
#[local] Set Warnings "-clear-no-such-hyp".

(** ** Exceptions and results *)

Inductive exn :=
  | FileNotFoundError
  | EmptyDataError
  | ParserError
  | AttributeError
  | KeyError
  | IndexError
  | ValueError
  | TypeError.

Inductive result (A : Type) :=
  | Ok (a : A)
  | Raise (e : exn).
Arguments Ok {A} a.
Arguments Raise {A} e.

#[global] Instance result_ret : MRet result := λ A a, Ok a.

#[global] Instance result_bind : MBind result := λ A B k r,
  match r with
  | Ok a => k a
  | Raise e => Raise e
  end.

#[global] Instance exn_eq_dec : EqDecision exn.
Proof. solve_decision. Defined.

#[global] Instance result_eq_dec {A} `{EqDecision A} : EqDecision (result A).
Proof. solve_decision. Defined.

(** [traverse f l] runs [f] on the elements from left to right and stops
    at the first exception, as [Series.apply] does. *)
Fixpoint traverse {A B} (f : A → result B) (l : list A) : result (list B) :=
  match l with
  | [] => Ok []
  | a :: l' => b ← f a; bs ← traverse f l'; Ok (b :: bs)
  end.

(** ** Python strings *)

Module Py.

(** [c.lower()] on the ASCII letters; every other byte is kept. *)
Definition lower_char (c : ascii) : ascii :=
  let n := nat_of_ascii c in
  if (65 <=? n)%nat && (n <=? 90)%nat then ascii_of_nat (n + 32) else c.

Fixpoint lower (s : string) : string :=
  match s with
  | EmptyString => EmptyString
  | String c s' => String (lower_char c) (lower s')
  end.

(** [s.split(sep)] for a one-character separator: never the empty list. *)
Fixpoint split (sep : ascii) (s : string) : list string :=
  match s with
  | EmptyString => [EmptyString]
  | String c s' =>
      if Ascii.eqb c sep then EmptyString :: split sep s'
      else match split sep s' with
           | h :: t => String c h :: t
           | [] => [String c EmptyString]
           end
  end.

(** [sep.join(l)]. *)
Fixpoint join (sep : string) (l : list string) : string :=
  match l with
  | [] => EmptyString
  | [x] => x
  | x :: l' => x +:+ sep +:+ join sep l'
  end.

(** The ASCII characters that [str.isspace] accepts. *)
Definition is_space (c : ascii) : bool :=
  let n := nat_of_ascii c in
  ((9 <=? n)%nat && (n <=? 13)%nat) || ((28 <=? n)%nat && (n <=? 32)%nat).

Fixpoint lstrip (s : string) : string :=
  match s with
  | EmptyString => EmptyString
  | String c s' => if is_space c then lstrip s' else s
  end.

Fixpoint rstrip (s : string) : string :=
  match s with
  | EmptyString => EmptyString
  | String c s' =>
      match rstrip s' with
      | EmptyString => if is_space c then EmptyString else String c EmptyString
      | t => String c t
      end
  end.

(** [s.strip()]. *)
Definition strip (s : string) : string := rstrip (lstrip s).

(** [sub in s]. *)
Fixpoint contains (sub s : string) : bool :=
  String.prefix sub s ||
  match s with
  | EmptyString => false
  | String _ s' => contains sub s'
  end.

(** Truthiness of a string: [bool(s)]. *)
Definition truthy (s : string) : bool :=
  match s with EmptyString => false | _ => true end.

(** ["%0<w>d" % n] for a natural number. *)
Definition zero_pad (w : nat) (n : N) : string :=
  let d := pretty n in
  String.concat "" (replicate (w - String.length d) "0") +:+ d.

End Py.

(** ** The Python runtime the program relies on

    Floating point numbers are not interpreted: [number] is the type of the
    numeric values other than NaN that a cell can hold (an int64 or a
    float64), and the conversions that Python and pandas perform on them
    are operations of the runtime. *)

Class Runtime := {
  number : Type;
  number_eq_dec :: EqDecision number;
  (** [float(n)] for an int [n] *)
  number_of_Z : Z → number;
  (** [str(x)] for a number [x] *)
  number_str : number → string;
  (** the number that [pd.to_numeric] reads in a string, if it reads one *)
  parse_number : string → option number;
  (** [str(l)] for a list of strings [l] *)
  list_str : list string → string;
}.

(** ** Configuration *)

Definition DISTRICTS : list string := ["Raipur"; "Durg"].
Definition MAX_IMAGES : nat := 5.

Definition hoarding_columns : list string :=
  ["id"; "location"; "district"; "size"; "price";
   "is_available"; "landmark"; "coordinates";
   "address"; "images"].

Definition booking_columns : list string :=
  ["booking_id"; "hoarding_id"; "user_name";
   "phone"; "email"; "start_date"; "end_date";
   "status"].

Section Store.
Context `{Runtime}.

(** ** Cells, frames and files *)

(** What a CSV field holds once pandas has read it. *)
Inductive scalar :=
  | SStr (s : string)
  | SBool (b : bool)
  | SNum (n : number)
  | SNaN.

(** What a DataFrame cell of this program holds: a scalar, or the list of
    image paths that [load_data] puts in the [images] column. *)
Inductive cell :=
  | Scalar (x : scalar)
  | CList (l : list string).
Coercion Scalar : scalar >-> cell.

Abbreviation row := (gmap string cell).

Record frame := { columns : list string; rows : list row }.

Record table := {
  header : list string;
  records : list (gmap string scalar)
}.

(** The state of a CSV file on disk. *)
Inductive file :=
  | Absent                (* no such file *)
  | Blank                 (* a file without a header line *)
  | Malformed             (* a file that pandas cannot tokenize *)
  | Table (t : table).

(** [DATA_FILE] and [BOOKINGS_FILE]. *)
Record disk := { DATA_FILE : file; BOOKINGS_FILE : file }.

(** ** Python and pandas primitives on cells *)

(** [str(x)] *)
Definition py_str (x : cell) : string :=
  match x with
  | Scalar (SStr s) => s
  | Scalar (SBool true) => "True"
  | Scalar (SBool false) => "False"
  | Scalar (SNum n) => number_str n
  | Scalar SNaN => "nan"
  | CList l => list_str l
  end.

(** [pd.isna(x)] and [pd.notna(x)] on a scalar *)
Definition pd_isna (x : scalar) : bool :=
  match x with SNaN => true | _ => false end.
Definition pd_notna (x : scalar) : bool := negb (pd_isna x).

(** [x == s] for a string [s]: values of another type are not equal to it. *)
Definition eq_str (x : cell) (s : string) : bool :=
  match x with
  | Scalar (SStr t) => String.eqb t s
  | _ => false
  end.

(** [x == b] for a bool [b]: a number equals [True] when it is 1. *)
Definition eq_bool (x : cell) (b : bool) : bool :=
  match x with
  | Scalar (SBool c) => Bool.eqb c b
  | Scalar (SNum n) => bool_decide (n = number_of_Z (if b then 1 else 0))
  | _ => false
  end.

(** The value of key [c] in a row; pandas holds NaN where a row has no
    value for a column. *)
Definition row_get (r : row) (c : string) : cell :=
  default (Scalar SNaN) (r !! c).

(** The row that holds [g c] in every column [c] of [cols]. *)
Definition tabulate {V} (cols : list string) (g : string → V) : gmap string V :=
  list_to_map ((λ c, (c, g c)) <$> cols).

(** An empty field is read as NaN and NaN is written as an empty field. *)
Definition csv_field (x : scalar) : scalar :=
  match x with
  | SStr EmptyString => SNaN
  | _ => x
  end.

(** The text that [to_csv] writes for a cell. *)
Definition csv_of_cell (x : cell) : scalar :=
  match x with
  | Scalar x => csv_field x
  | CList l => csv_field (SStr (list_str l))
  end.

(** The row that pandas makes of a record: a field that the record lacks
    is empty. *)
Definition read_record (cols : list string) (rec : gmap string scalar) : row :=
  tabulate cols (λ c, Scalar (csv_field (default SNaN (rec !! c)))).

(** The record that pandas writes for a row. *)
Definition write_row (cols : list string) (r : row) : gmap string scalar :=
  tabulate cols (λ c, csv_of_cell (row_get r c)).

(** [pd.read_csv(f)] *)
Definition pd_read_csv (f : file) : result frame :=
  match f with
  | Absent => Raise FileNotFoundError
  | Blank => Raise EmptyDataError
  | Malformed => Raise ParserError
  | Table t =>
      Ok {| columns := header t;
            rows := read_record (header t) <$> records t |}
  end.

(** [df.to_csv(f, index=False)]: the new content of the file. *)
Definition to_csv (df : frame) : file :=
  Table {| header := columns df;
           records := write_row (columns df) <$> rows df |}.

(** [pd.DataFrame(columns=cols)] *)
Definition empty_frame (cols : list string) : frame :=
  {| columns := cols; rows := [] |}.

(** [pd.DataFrame([d])] for a dict [d], given with its keys in order. *)
Definition frame_of_dict (d : list (string * cell)) : frame :=
  {| columns := d.*1; rows := [list_to_map d] |}.

(** [df.empty] *)
Definition frame_empty (df : frame) : bool :=
  match columns df, rows df with
  | [], _ | _, [] => true
  | _, _ => false
  end.

(** [df[col] = v] for a scalar [v]: the column is added when it is new. *)
Definition set_column (col : string) (v : cell) (df : frame) : frame :=
  {| columns := if bool_decide (col ∈ columns df) then columns df
                else columns df ++ [col];
     rows := (λ r, <[col := v]> r) <$> rows df |}.

(** [df[col] = df[col].apply(f)] *)
Definition series_apply (col : string) (f : cell → result cell) (df : frame)
  : result frame :=
  if bool_decide (col ∈ columns df) then
    rs ← traverse (λ r, v ← f (row_get r col); Ok (<[col := v]> r)) (rows df);
    Ok {| columns := columns df; rows := rs |}
  else Raise KeyError.

(** A row with NaN in the columns of [cols] that it lacks. *)
Definition reindex (cols : list string) (r : row) : row :=
  foldr (λ c r, match r !! c with
                | Some _ => r
                | None => <[c := Scalar SNaN]> r
                end) r cols.

(** [pd.concat([df1, df2], ignore_index=True)] *)
Definition pd_concat (df1 df2 : frame) : frame :=
  let cols := columns df1 ++
              filter (λ c, c ∉ columns df1) (columns df2) in
  {| columns := cols;
     rows := reindex cols <$> (rows df1 ++ rows df2) |}.

(** [df.at[i, key] = v] for a row label [i] that exists. *)
Definition set_at (i : nat) (key : string) (v : cell) (df : frame) : frame :=
  if bool_decide (key ∈ columns df) then
    {| columns := columns df; rows := alter (<[key := v]>) i (rows df) |}
  else
    {| columns := columns df ++ [key];
       rows := alter (<[key := v]>) i
                 ((<[key := Scalar SNaN]>) <$> rows df) |}.

(** [df[mask]] for a boolean mask *)
Fixpoint select {A} (mask : list bool) (l : list A) : list A :=
  match mask, l with
  | b :: mask', a :: l' => if b then a :: select mask' l' else select mask' l'
  | _, _ => []
  end.

Definition frame_select (mask : list bool) (df : frame) : frame :=
  {| columns := columns df; rows := select mask (rows df) |}.

(** [df.<name>]: [size] is a property of every DataFrame (the number of
    its elements), so it is not the column of that name; another name is
    the column of that name, if there is one. *)
Inductive attr :=
  | AttrSeries (xs : list cell)
  | AttrInt (n : Z).

Definition frame_getattr (df : frame) (name : string) : result attr :=
  if String.eqb name "size" then
    Ok (AttrInt (Z.of_nat (length (rows df) * length (columns df))))
  else if bool_decide (name ∈ columns df) then
    Ok (AttrSeries ((λ r, row_get r name) <$> rows df))
  else Raise AttributeError.

(** [a == v], used as a mask: on a Series the comparison is made element
    by element; an int compared with [v] is a plain bool, which is not a
    mask ([df[False]] is a missing key). *)
Definition attr_eq (a : attr) (eqv : cell → bool) : result (list bool) :=
  match a with
  | AttrSeries xs => Ok (eqv <$> xs)
  | AttrInt _ => Raise KeyError
  end.

(** [a.str.contains(pat, case=False, na=False)]: an int has no attribute
    [str]; on a Series, an element that is not a string counts as [na].
    The pattern is taken as literal text. *)
Definition str_contains (a : attr) (pat : string) : result (list bool) :=
  match a with
  | AttrSeries xs =>
      Ok ((λ x, match x with
                | Scalar (SStr s) => Py.contains (Py.lower pat) (Py.lower s)
                | _ => false
                end) <$> xs)
  | AttrInt _ => Raise AttributeError
  end.

(** [r[key]] for a row [r] of [df] *)
Definition getitem (df : frame) (r : row) (key : string) : result cell :=
  if bool_decide (key ∈ columns df) then Ok (row_get r key) else Raise KeyError.

(** ** Data loading and saving *)

(** [lambda x: x.split("|") if pd.notna(x) and x != "" else []] *)
Definition images_of_field (x : cell) : result cell :=
  match x with
  | Scalar SNaN => Ok (CList [])
  | Scalar (SStr s) =>
      if Py.truthy s then Ok (CList (Py.split "|" s)) else Ok (CList [])
  | Scalar (SBool _) | Scalar (SNum _) => Raise AttributeError
  | CList [_] => Raise AttributeError
  | CList _ => Raise ValueError
  end.

(** [pd.to_numeric(x, errors="coerce")] on one value *)
Definition pd_to_numeric (x : cell) : result cell :=
  match x with
  | Scalar (SStr s) =>
      match parse_number s with
      | Some n => Ok (Scalar (SNum n))
      | None => Ok (Scalar SNaN)
      end
  | Scalar x => Ok (Scalar x)
  | CList _ => Raise TypeError
  end.

(** [lambda x: True if str(x).lower() in ["true", "1"] else False] *)
Definition is_available_of_field (x : cell) : bool :=
  if bool_decide (Py.lower (py_str x) ∈ ["true"; "1"]) then true else false.

Definition read_or_empty (f : file) (cols : list string) : result frame :=
  match pd_read_csv f with
  | Raise FileNotFoundError | Raise EmptyDataError => Ok (empty_frame cols)
  | r => r
  end.

Definition optional_columns : list string :=
  ["images"; "landmark"; "coordinates"; "address"].

Definition load_data (d : disk) : result frame :=
  df ← read_or_empty (DATA_FILE d) hoarding_columns;
  (* Ensure missing columns exist *)
  let df := foldl (λ df col,
                     if bool_decide (col ∉ columns df)
                     then set_column col (SStr "") df else df)
                  df optional_columns in
  (* Convert images from '|' string to list *)
  df ← (if bool_decide ("images" ∈ columns df)
        then series_apply "images" images_of_field df else Ok df);
  (* Attempt to convert numeric columns to proper dtype *)
  df ← (if bool_decide ("price" ∈ columns df)
        then series_apply "price" pd_to_numeric df else Ok df);
  (* Convert is_available to boolean if it exists *)
  df ← (if bool_decide ("is_available" ∈ columns df)
        then series_apply "is_available"
               (λ x, Ok (Scalar (SBool (is_available_of_field x)))) df
        else Ok df);
  Ok df.

(** [lambda x: "|".join(x) if x else ""] *)
Definition field_of_images (x : cell) : result cell :=
  match x with
  | CList [] => Ok (Scalar (SStr ""))
  | CList l => Ok (Scalar (SStr (Py.join "|" l)))
  | Scalar (SStr s) =>
      Ok (Scalar (SStr (Py.join "|"
                          ((λ c, String c EmptyString) <$>
                             list_ascii_of_string s))))
  | Scalar (SBool false) => Ok (Scalar (SStr ""))
  | Scalar (SNum n) =>
      if bool_decide (n = number_of_Z 0) then Ok (Scalar (SStr ""))
      else Raise TypeError
  | Scalar (SBool true) | Scalar SNaN => Raise TypeError
  end.

(** [save_data(df)] writes [DATA_FILE]; it also changes [df] itself, whose
    [images] column holds the joined strings afterwards. *)
Definition save_data (df : frame) (d : disk) : result (frame * disk) :=
  df ← (if bool_decide ("images" ∈ columns df)
        then series_apply "images" field_of_images df else Ok df);
  Ok (df, {| DATA_FILE := to_csv df; BOOKINGS_FILE := BOOKINGS_FILE d |}).

Definition load_bookings (d : disk) : result frame :=
  read_or_empty (BOOKINGS_FILE d) booking_columns.

Definition save_bookings (bdf : frame) (d : disk) : disk :=
  {| DATA_FILE := DATA_FILE d; BOOKINGS_FILE := to_csv bdf |}.

(** ** Image handling *)

(** [handle_image_upload()]: the uploaded files are the input, each with
    the path it is saved under, or [None] when opening or saving it
    raises (which is caught and reported). *)
Definition handle_image_upload (uploaded_files : list (option string))
  : list string :=
  omap id (take MAX_IMAGES uploaded_files).


(** ** What the page shows *)

Inductive notice :=
  | st_error (msg : string)
  | st_warning (msg : string)
  | st_info (msg : string)
  | st_success (msg : string)
  | st_balloons.

(** ** Booking form *)

(** A [datetime.date]; dates are ordered as the triples (year, month, day). *)
Record date := { year : N; month : N; day : N }.

Definition date_lt (a b : date) : bool :=
  if (year a =? year b)%N then
    if (month a =? month b)%N then (day a <? day b)%N
    else (month a <? month b)%N
  else (year a <? year b)%N.

(** [str(d)], the ISO form YYYY-MM-DD *)
Definition date_str (d : date) : string :=
  Py.zero_pad 4 (year d) +:+ "-" +:+ Py.zero_pad 2 (month d) +:+ "-" +:+
  Py.zero_pad 2 (day d).

(** The widgets of the booking form and whether it was submitted. *)
Record booking_inputs := {
  user_name : string;
  phone : string;
  email : string;
  start_date : date;
  end_date : date;
  confirm_booking : bool
}.

(** The dict [new_booking]; [uuid4] is the identifier that
    [uuid.uuid4()] returns in this run. *)
Definition new_booking (uuid4 : string) (hoarding_id : cell)
    (w : booking_inputs) : list (string * cell) := [
    ("booking_id", Scalar (SStr uuid4));
    ("hoarding_id", hoarding_id);
    ("user_name", Scalar (SStr (user_name w)));
    ("phone", Scalar (SStr (phone w)));
    ("email", Scalar (SStr (email w)));
    ("start_date", Scalar (SStr (date_str (start_date w))));
    ("end_date", Scalar (SStr (date_str (end_date w))));
    ("status", Scalar (SStr "Pending"))
  ].

(** [booking_form(hoarding_id)] *)
Definition booking_form (uuid4 : string) (hoarding_id : cell)
    (w : booking_inputs) (d : disk) : result (disk * list notice) :=
  bdf ← load_bookings d;
  if confirm_booking w then
    (* Validate user input *)
    if negb (Py.truthy (user_name w)) || negb (Py.truthy (phone w))
       || negb (Py.truthy (email w)) then
      Ok (d, [st_error "Please fill all required fields."])
    else if date_lt (end_date w) (start_date w) then
      Ok (d, [st_error "End date cannot be before start date."])
    else
      let bdf := pd_concat bdf (frame_of_dict (new_booking uuid4 hoarding_id w)) in
      let d := save_bookings bdf d in
      Ok (d, [st_success "Booking created successfully!"; st_balloons])
  else Ok (d, []).

(** ** Main application: View Hoardings *)

(** The three filters of the page, applied to the loaded frame. *)
Definition apply_filters (df : frame)
    (district_filter status_filter size_filter : string) : result frame :=
  let filtered_df := df in
  filtered_df ←
    (if negb (String.eqb district_filter "All") then
       a ← frame_getattr filtered_df "district";
       mask ← attr_eq a (λ x, eq_str x district_filter);
       Ok (frame_select mask filtered_df)
     else Ok filtered_df);
  filtered_df ←
    (if negb (String.eqb status_filter "All") then
       let is_avail := String.eqb status_filter "Available" in
       a ← frame_getattr filtered_df "is_available";
       mask ← attr_eq a (λ x, eq_bool x is_avail);
       Ok (frame_select mask filtered_df)
     else Ok filtered_df);
  filtered_df ←
    (if Py.truthy size_filter then
       a ← frame_getattr filtered_df "size";
       mask ← str_contains a size_filter;
       Ok (frame_select mask filtered_df)
     else Ok filtered_df);
  Ok filtered_df.

(** The price of a card:
    [row['price'] if not pd.isna(row['price']) else 'N/A'] *)
Definition price_text (price : cell) : string :=
  match price with
  | Scalar SNaN => "N/A"
  | x => py_str x
  end.

(** ** Main application: Add New *)

Record add_inputs := {
  location : string;
  district : string;
  size : string;
  price : Z;
  landmark : string;
  coordinates : string;
  address : string;
  images : list string;
  is_available : bool;
  submit_hoarding : bool
}.

(** What a data operation leaves behind: the frame [df] in memory, the
    files and the messages shown. *)
Record outcome := {
  memory : frame;
  stored : disk;
  shown : list notice
}.

Definition new_hoarding (uuid4 : string) (w : add_inputs)
  : list (string * cell) := [
    ("id", Scalar (SStr uuid4));
    ("location", Scalar (SStr (location w)));
    ("district", Scalar (SStr (district w)));
    ("size", Scalar (SStr (size w)));
    ("price", Scalar (SNum (number_of_Z (price w))));
    ("is_available", Scalar (SBool (is_available w)));
    ("landmark", Scalar (SStr (landmark w)));
    ("coordinates", Scalar (SStr (coordinates w)));
    ("address", Scalar (SStr (address w)));
    ("images", CList (images w))
  ].

Definition add_new (uuid4 : string) (w : add_inputs) (df : frame) (d : disk)
  : result outcome :=
  if submit_hoarding w then
    if negb (forallb Py.truthy [location w; district w; size w]) then
      Ok {| memory := df; stored := d;
            shown := [st_error "Please fill all required fields (location, district, size)."] |}
    else
      let df := pd_concat df (frame_of_dict (new_hoarding uuid4 w)) in
      '(df, d) ← save_data df d;
      Ok {| memory := df; stored := d;
            shown := [st_success "Hoarding added successfully!"; st_balloons] |}
  else Ok {| memory := df; stored := d; shown := [] |}.


(** ** Main application: Edit Existing *)

Record edit_inputs := {
  selected : string;          (* the option chosen in "Select Hoarding" *)
  new_location : string;
  new_district : string;
  new_size : string;
  new_price : number;
  new_landmark : string;
  new_coords : string;
  new_address : string;
  new_images : list string;
  new_available : bool;
  update_hoarding : bool
}.

(** [lambda x: f"{x['id']} | {x['location']} ({x['district']})"] *)
Definition hoarding_label (df : frame) (x : row) : result string :=
  i ← getitem df x "id";
  l ← getitem df x "location";
  t ← getitem df x "district";
  Ok (py_str i +:+ " | " +:+ py_str l +:+ " (" +:+ py_str t +:+ ")").

Definition hoarding_list (df : frame) : result (list string) :=
  traverse (hoarding_label df) (rows df).

(** [selected.split("|")[0].strip()] *)
Definition hoarding_id_of (selected : string) : string :=
  Py.strip (default EmptyString (head (Py.split "|" selected))).

(** The mask [df.id == hoarding_id] *)
Definition id_mask (df : frame) (hoarding_id : string) : result (list bool) :=
  a ← frame_getattr df "id";
  attr_eq a (λ x, eq_str x hoarding_id).

(** The position of the first [true] of a mask *)
Fixpoint first_true (mask : list bool) : option nat :=
  match mask with
  | [] => None
  | true :: _ => Some 0
  | false :: mask' => S <$> first_true mask'
  end.

(** [DISTRICTS.index(x)] *)
Definition district_index (x : cell) : result nat :=
  match first_true (eq_str x <$> DISTRICTS) with
  | Some i => Ok i
  | None => Raise ValueError
  end.

(** [float(x if not pd.isna(x) else 0)], the value the price widget
    starts with; a string is converted when it reads as a number. *)
Definition price_default (x : cell) : result number :=
  match x with
  | Scalar SNaN => Ok (number_of_Z 0)
  | Scalar (SNum n) => Ok n
  | Scalar (SBool b) => Ok (number_of_Z (if b then 1 else 0))
  | Scalar (SStr s) =>
      match parse_number s with
      | Some n => Ok n
      | None => Raise ValueError
      end
  | CList _ => Raise TypeError
  end.

(** [existing_images + new_images] *)
Definition add_images (existing_images : cell) (new_images : list string)
  : result cell :=
  match existing_images with
  | CList l => Ok (CList (l ++ new_images))
  | Scalar _ => Raise TypeError
  end.

(** The dict [updates]; [all_images] is [existing_images + new_images]. *)
Definition updates (w : edit_inputs) (all_images : cell)
  : list (string * cell) := [
    ("location", Scalar (SStr (new_location w)));
    ("district", Scalar (SStr (new_district w)));
    ("size", Scalar (SStr (new_size w)));
    ("price", Scalar (SNum (new_price w)));
    ("landmark", Scalar (SStr (new_landmark w)));
    ("coordinates", Scalar (SStr (new_coords w)));
    ("address", Scalar (SStr (new_address w)));
    ("is_available", Scalar (SBool (new_available w)));
    ("images", all_images)
  ].

(** [for key, value in updates.items(): df.at[row_index, key] = value] *)
Definition apply_updates (row_index : nat) (updates : list (string * cell))
    (df : frame) : frame :=
  foldl (λ df kv, set_at row_index kv.1 kv.2 df) df updates.

Definition edit_existing (w : edit_inputs) (df : frame) (d : disk)
  : result outcome :=
  if frame_empty df then
    Ok {| memory := df; stored := d;
          shown := [st_warning "No hoardings available for editing"] |}
  else
    (* Hoarding Selector *)
    _ ← hoarding_list df;
    let hoarding_id := hoarding_id_of (selected w) in
    mask ← id_mask df hoarding_id;
    hoarding_data ← match select mask (rows df) with
                    | r :: _ => Ok r
                    | [] => Raise IndexError
                    end;
    (* Edit Form *)
    _ ← getitem df hoarding_data "location";
    t ← getitem df hoarding_data "district";
    _ ← district_index t;
    _ ← getitem df hoarding_data "size";
    p ← getitem df hoarding_data "price";
    _ ← price_default p;
    _ ← getitem df hoarding_data "landmark";
    _ ← getitem df hoarding_data "coordinates";
    _ ← getitem df hoarding_data "address";
    existing_images ← getitem df hoarding_data "images";
    _ ← getitem df hoarding_data "is_available";
    if update_hoarding w then
      all_images ← add_images existing_images (new_images w);
      let updates := updates w all_images in
      mask ← id_mask df hoarding_id;
      row_index ← match first_true mask with
                  | Some i => Ok i
                  | None => Raise IndexError
                  end;
      let df := apply_updates row_index updates df in
      '(df, d) ← save_data df d;
      Ok {| memory := df; stored := d;
            shown := [st_success "Hoarding updated successfully!"] |}
    else Ok {| memory := df; stored := d; shown := [] |}.


(** ** Main application *)

(** The two entries of [st.session_state] that the program uses. *)
Record session_state := {
  default_operation : option string;
  selected_hoarding_for_booking : option cell
}.

(** The operation chosen in the sidebar, with the widgets of its page;
    [book_now] is the card whose "Book Now" button was clicked, if any. *)
Inductive operation :=
  | ViewHoardings (district_filter status_filter size_filter : string)
                  (book_now : option nat)
  | AddNew (uuid4 : string) (w : add_inputs)
  | EditExisting (w : edit_inputs)
  | Bookings (uuid4 : string) (w : booking_inputs).

Definition operations : list string :=
  ["View Hoardings"; "Add New"; "Edit Existing"; "Bookings"].

(** Truthiness of a cell: [bool(x)] *)
Definition truthy (x : cell) : bool :=
  match x with
  | Scalar (SStr s) => Py.truthy s
  | Scalar (SBool b) => b
  | Scalar (SNum n) => negb (bool_decide (n = number_of_Z 0))
  | Scalar SNaN => true
  | CList l => match l with [] => false | _ => true end
  end.

(** What a card of "View Hoardings" shows of a row. *)
Record card := {
  card_id : cell;
  card_price : string;
  card_status : string;
  card_book_now : bool
}.

Definition hoarding_card (df : frame) (r : row) : result card :=
  _ ← getitem df r "images";
  _ ← getitem df r "location";
  i ← getitem df r "id";
  _ ← getitem df r "district";
  _ ← getitem df r "size";
  p ← getitem df r "price";
  a ← getitem df r "is_available";
  _ ← getitem df r "landmark";
  _ ← getitem df r "address";
  _ ← getitem df r "coordinates";
  Ok {| card_id := i;
        card_price := price_text p;
        card_status := if truthy a then "Available" else "Booked";
        card_book_now := truthy a |}.

Record page := {
  session : session_state;
  files : disk;
  cards : list card;
  notices : list notice
}.

Definition main (ss : session_state) (op : operation) (d : disk)
  : result page :=
  (* Sidebar: a default operation is used once, then cleared *)
  _ ← match default_operation ss with
      | Some o => if bool_decide (o ∈ operations) then Ok () else Raise ValueError
      | None => Ok ()
      end;
  let ss := {| default_operation := None;
               selected_hoarding_for_booking :=
                 selected_hoarding_for_booking ss |} in
  (* Load data *)
  df ← load_data d;
  _ ← load_bookings d;
  match op with
  | ViewHoardings district_filter status_filter size_filter book_now =>
      if frame_empty df then
        Ok {| session := ss; files := d; cards := [];
              notices := [st_warning "No hoardings available in database"] |}
      else
        filtered_df ← apply_filters df district_filter status_filter size_filter;
        cs ← traverse (hoarding_card df) (rows filtered_df);
        let ss :=
          match book_now ≫= (λ i, cs !! i) with
          | Some c =>
              if card_book_now c then
                {| default_operation := Some "Bookings";
                   selected_hoarding_for_booking := Some (card_id c) |}
              else ss
          | None => ss
          end in
        Ok {| session := ss; files := d; cards := cs; notices := [] |}
  | AddNew uuid4 w =>
      o ← add_new uuid4 w df d;
      Ok {| session := ss; files := stored o; cards := []; notices := shown o |}
  | EditExisting w =>
      o ← edit_existing w df d;
      Ok {| session := ss; files := stored o; cards := []; notices := shown o |}
  | Bookings uuid4 w =>
      '(d, ns) ←
        match selected_hoarding_for_booking ss with
        | Some hoarding_to_book =>
            '(d, ns) ← booking_form uuid4 hoarding_to_book w d;
            Ok (d, st_info ("You are booking hoarding: " +:+ py_str hoarding_to_book) :: ns)
        | None => Ok (d, [st_info "No hoarding selected for booking at the moment."])
        end;
      (* Display existing bookings *)
      bdf ← load_bookings d;
      Ok {| session := ss; files := d; cards := [];
            notices := ns ++ (if frame_empty bdf
                              then [st_warning "No bookings yet."] else []) |}
  end.

(** ** The loaded form of a record

    What [load_data] makes of one record of a table whose header is
    [cols], written as one function; [load_data_table] below proves that
    [load_data] computes it. *)

Definition get_ok {A} (dflt : A) (r : result A) : A :=
  match r with
  | Ok a => a
  | Raise _ => dflt
  end.

Definition with_defaults (cols : list string) (r : row) : row :=
  foldl (λ r col, if bool_decide (col ∉ cols)
                  then <[col := Scalar (SStr "")]> r else r)
        r optional_columns.

Definition load_columns (cols : list string) : list string :=
  cols ++ filter (λ c, c ∉ cols) optional_columns.

Definition load_row (cols : list string) (rec : gmap string scalar) : row :=
  let r := with_defaults cols (read_record cols rec) in
  let r := <["images" :=
               get_ok (Scalar SNaN) (images_of_field (row_get r "images"))]> r in
  let r := if bool_decide ("price" ∈ cols)
           then <["price" :=
                    get_ok (Scalar SNaN) (pd_to_numeric (row_get r "price"))]> r
           else r in
  if bool_decide ("is_available" ∈ cols)
  then <["is_available" :=
           Scalar (SBool (is_available_of_field (row_get r "is_available")))]> r
  else r.

(** The [images] field of a record is text or empty (not a number or a
    bool, which have no [split]). *)
Definition images_text (rec : gmap string scalar) : bool :=
  match rec !! "images" with
  | Some (SBool _) | Some (SNum _) => false
  | _ => true
  end.


(** The field [k] of a record as pandas reads it, and the cell that
    [load_data] makes of a field of column [k]. *)
Definition read_field (rec : gmap string scalar) (k : string) : scalar :=
  csv_field (default SNaN (rec !! k)).

Definition cell_of_field (k : string) (x : scalar) : cell :=
  if String.eqb k "images" then
    get_ok (Scalar SNaN) (images_of_field (Scalar x))
  else if String.eqb k "price" then
    get_ok (Scalar SNaN) (pd_to_numeric (Scalar x))
  else if String.eqb k "is_available" then
    Scalar (SBool (is_available_of_field (Scalar x)))
  else Scalar x.

Definition loaded_cell (rec : gmap string scalar) (k : string) : cell :=
  cell_of_field k (read_field rec k).

(** The cell that [save_data] leaves in column [k]. *)
Definition saved_cell (k : string) (x : cell) : cell :=
  if String.eqb k "images"
  then get_ok (Scalar SNaN) (field_of_images x) else x.

(** The frame that [save_data] leaves in memory. *)
Definition saved_frame (df : frame) : frame :=
  {| columns := columns df;
     rows := (λ r, <["images" := saved_cell "images" (row_get r "images")]> r)
             <$> rows df |}.


(** ** When an edit goes through

    The conditions under which "Edit Existing" reaches its update: the
    frame has the columns of a listing and lists of images, the option
    chosen in the select box names the identifier of row [j] (the first
    row with that identifier), whose district is one of [DISTRICTS], whose
    price is a number or NaN and whose images are [existing], and the form
    was submitted. *)
Definition edit_ready (w : edit_inputs) (df : frame) (j : nat) (r : row)
    (existing : list string) : Prop :=
  hoarding_columns ⊆ columns df ∧
  Forall (λ r, ∃ l, row_get r "images" = CList l) (rows df) ∧
  rows df !! j = Some r ∧
  first_true ((λ r, eq_str (row_get r "id") (hoarding_id_of (selected w)))
                <$> rows df) = Some j ∧
  (∃ i, district_index (row_get r "district") = Ok i) ∧
  (∃ p, price_default (row_get r "price") = Ok p) ∧
  row_get r "images" = CList existing ∧
  update_hoarding w = true.

(** The frame that the update leaves in memory before it is saved. *)
Definition updated_frame (w : edit_inputs) (df : frame) (j : nat)
    (existing : list string) : frame :=
  apply_updates j (updates w (CList (existing ++ new_images w))) df.


(** An image reference that can be stored: it is not empty and the
    delimiter does not occur in it. *)
Definition storable (x : string) : bool :=
  Py.truthy x &&
  forallb (λ c, negb (Ascii.eqb c "|")) (list_ascii_of_string x).


(** The records of a file that holds a table. *)
Definition records_of (f : file) : list (gmap string scalar) :=
  match f with
  | Table t => records t
  | _ => []
  end.


(** ** The cells of a column

    The values of column [name], row by row, as [df[name].tolist()]
    gives them for a column of the frame. *)
Definition column_cells (name : string) (df : frame) : list cell :=
  (λ r, row_get r name) <$> rows df.

(** ** Decidable equality

    Equality of the values of the model is decidable, so that an equation
    between two results on concrete data can be checked by evaluation. *)

#[global] Instance scalar_eq_dec : EqDecision scalar.
Proof. solve_decision. Defined.

#[global] Instance cell_eq_dec : EqDecision cell.
Proof. solve_decision. Defined.

#[global] Instance frame_eq_dec : EqDecision frame.
Proof. solve_decision. Defined.

#[global] Instance table_eq_dec : EqDecision table.
Proof. solve_decision. Defined.

#[global] Instance file_eq_dec : EqDecision file.
Proof. solve_decision. Defined.

#[global] Instance disk_eq_dec : EqDecision disk.
Proof. solve_decision. Defined.

#[global] Instance notice_eq_dec : EqDecision notice.
Proof. solve_decision. Defined.

#[global] Instance outcome_eq_dec : EqDecision outcome.
Proof. solve_decision. Defined.

#[global] Instance session_state_eq_dec : EqDecision session_state.
Proof. solve_decision. Defined.

#[global] Instance card_eq_dec : EqDecision card.
Proof. solve_decision. Defined.

#[global] Instance page_eq_dec : EqDecision page.
Proof. solve_decision. Defined.

End Store.

(** ** A runtime with integer numbers

    Used to run the program on concrete inputs: every number is an
    integer, written in decimal with an optional minus sign. *)

Module IntRuntime.

Definition digit_of (c : ascii) : option Z :=
  let n := nat_of_ascii c in
  if (48 <=? n)%nat && (n <=? 57)%nat then Some (Z.of_nat (n - 48)) else None.

Fixpoint digits_value (acc : Z) (s : string) : option Z :=
  match s with
  | EmptyString => Some acc
  | String c s' =>
      match digit_of c with
      | Some v => digits_value (10 * acc + v) s'
      | None => None
      end
  end.

Definition parse_int (s : string) : option Z :=
  match s with
  | EmptyString => None
  | String "-" (String c s') => Z.opp <$> digits_value 0 (String c s')
  | _ => digits_value 0 s
  end.

Definition quoted_list (l : list string) : string :=
  "[" +:+ Py.join ", " ((λ x, "'" +:+ x +:+ "'") <$> l) +:+ "]".

#[export] Instance int_runtime : Runtime := {|
  number := Z;
  number_of_Z := id;
  number_str := pretty;
  parse_number := parse_int;
  list_str := quoted_list
|}.

End IntRuntime.

(** ** Sample data

    Two listings, as a file holds them, and the inputs of one run of each
    operation; the numbers are those of [IntRuntime]. *)

Module Sample.
Import IntRuntime.

Definition listing1 : gmap string scalar := list_to_map [
  ("id", SStr "h1"); ("location", SStr "Main Road");
  ("district", SStr "Raipur"); ("size", SStr "10x20");
  ("price", SStr "abc"); ("is_available", SStr "TRUE");
  ("landmark", SStr "Mall"); ("coordinates", SStr "21.2,81.6");
  ("address", SStr "Main Road 1"); ("images", SStr "x.jpg")].

Definition listing2 : gmap string scalar := list_to_map [
  ("id", SStr "h2"); ("location", SStr "Ring Road");
  ("district", SStr "Durg"); ("size", SStr "20x30");
  ("price", SNum 5000%Z); ("is_available", SBool false);
  ("landmark", SStr "Bridge"); ("coordinates", SStr "21.1,81.2");
  ("address", SStr "Ring Road 7"); ("images", SStr "p.png|q.png")].

Definition listings : table :=
  {| header := hoarding_columns; records := [listing1; listing2] |}.

Definition files : disk :=
  {| DATA_FILE := Table listings; BOOKINGS_FILE := Absent |}.

(** The rows that [load_data] makes of [listings]. *)
Definition row1 : gmap string cell := list_to_map [
  ("id", Scalar (SStr "h1")); ("location", Scalar (SStr "Main Road"));
  ("district", Scalar (SStr "Raipur")); ("size", Scalar (SStr "10x20"));
  ("price", Scalar SNaN); ("is_available", Scalar (SBool true));
  ("landmark", Scalar (SStr "Mall"));
  ("coordinates", Scalar (SStr "21.2,81.6"));
  ("address", Scalar (SStr "Main Road 1")); ("images", CList ["x.jpg"])].

Definition row2 : gmap string cell := list_to_map [
  ("id", Scalar (SStr "h2")); ("location", Scalar (SStr "Ring Road"));
  ("district", Scalar (SStr "Durg")); ("size", Scalar (SStr "20x30"));
  ("price", Scalar (SNum 5000%Z)); ("is_available", Scalar (SBool false));
  ("landmark", Scalar (SStr "Bridge"));
  ("coordinates", Scalar (SStr "21.1,81.2"));
  ("address", Scalar (SStr "Ring Road 7"));
  ("images", CList ["p.png"; "q.png"])].

Definition loaded : frame :=
  {| columns := hoarding_columns; rows := [row1; row2] |}.

(** A booking of a listing that does not exist. *)
Definition booking : booking_inputs :=
  {| user_name := "Asha"; phone := "98260"; email := "asha@example.org";
     start_date := {| year := 2025; month := 3; day := 1 |};
     end_date := {| year := 2025; month := 3; day := 31 |};
     confirm_booking := true |}.

(** The same booking with its dates exchanged. *)
Definition booking_backwards : booking_inputs :=
  {| user_name := "Asha"; phone := "98260"; email := "asha@example.org";
     start_date := {| year := 2025; month := 3; day := 31 |};
     end_date := {| year := 2025; month := 3; day := 1 |};
     confirm_booking := true |}.

Definition hoarding : add_inputs :=
  {| location := "Station Road"; district := "Raipur"; size := "12x24";
     price := 7500; landmark := "Station"; coordinates := "";
     address := "Station Road 3"; images := ["s.jpg"];
     is_available := true; submit_hoarding := true |}.

(** The same listing without its size. *)
Definition hoarding_without_size : add_inputs :=
  {| location := "Station Road"; district := "Raipur"; size := "";
     price := 7500; landmark := "Station"; coordinates := "";
     address := "Station Road 3"; images := ["s.jpg"];
     is_available := true; submit_hoarding := true |}.

(** An edit of the first listing that uploads two images. *)
Definition edit : edit_inputs :=
  {| selected := "h1 | Main Road (Raipur)";
     new_location := "Main Road"; new_district := "Raipur";
     new_size := "10x20"; new_price := 6000%Z; new_landmark := "Mall";
     new_coords := "21.2,81.6"; new_address := "Main Road 1";
     new_images := ["a.jpg"; "b.jpg"]; new_available := true;
     update_hoarding := true |}.

(** The same two listings in a file written before the [landmark] column
    existed. *)
Definition old_listings : table :=
  {| header := ["id"; "location"; "district"; "size"; "price";
                "is_available"; "coordinates"; "address"; "images"];
     records := [delete "landmark" listing1; delete "landmark" listing2] |}.

Definition old_files : disk :=
  {| DATA_FILE := Table old_listings; BOOKINGS_FILE := Absent |}.

(** A file whose first listing has a number in its [images] field. *)
Definition numbered_images : table :=
  {| header := hoarding_columns;
     records := [<["images" := SNum 7%Z]> listing1; listing2] |}.

(** Loaded listings that no option of the select box names: the identifier
    of the first is a number, that of the second holds the delimiter. *)
Definition unnamed : frame :=
  {| columns := hoarding_columns;
     rows := [<["id" := Scalar (SNum 1%Z)]> row1;
              <["id" := Scalar (SStr "a|b")]> row2] |}.

(** A booking of one day. *)
Definition booking_of_a_day : booking_inputs :=
  {| user_name := "Asha"; phone := "98260"; email := "asha@example.org";
     start_date := {| year := 2025; month := 3; day := 1 |};
     end_date := {| year := 2025; month := 3; day := 1 |};
     confirm_booking := true |}.

(** A file of bookings with one booking, and the frame it is read as. *)
Definition earlier_booking : gmap string scalar := list_to_map [
  ("booking_id", SStr "b-0"); ("hoarding_id", SStr "h2");
  ("user_name", SStr "Ravi"); ("phone", SNum 98261%Z);
  ("email", SStr "ravi@example.org"); ("start_date", SStr "2025-01-01");
  ("end_date", SStr "2025-01-31"); ("status", SStr "Pending")].

Definition booked_files : disk :=
  {| DATA_FILE := Table listings;
     BOOKINGS_FILE :=
       Table {| header := booking_columns; records := [earlier_booking] |} |}.

Definition booked : frame :=
  {| columns := booking_columns;
     rows := [read_record booking_columns earlier_booking] |}.

(** The session after "Book Now" was clicked on the first listing. *)
Definition booking_session : session_state :=
  {| default_operation := None;
     selected_hoarding_for_booking := Some (Scalar (SStr "h1")) |}.

(** Loaded listings whose first one is of a district that the program
    does not know. *)
Definition elsewhere : frame :=
  {| columns := hoarding_columns;
     rows := [<["district" := Scalar (SStr "Bilaspur")]> row1; row2] |}.

End Sample.

(** Decides a closed equation of the model by evaluating both sides. *)
Ltac evaluate := apply (bool_decide_unpack _); vm_compute; exact I.

Section Properties.
Context `{Runtime}.
Local Open Scope string_scope.
Local Open Scope list_scope.

(** *** The [is_available] parse *)

Lemma lower_char_one c : Py.lower_char c = "1"%char → c = "1"%char.
Proof.
  destruct c as [[] [] [] [] [] [] [] []]; vm_compute; congruence.
Qed.

Lemma lower_one s : Py.lower s = "1" → s = "1".
Proof.
  destruct s as [|c [|c' s']]; simpl; try congruence.
  intros [= Hc]. by rewrite (lower_char_one c Hc).
Qed.

(** C2: the parse of a stored [is_available] value is true exactly when
    the value, written as a string and lower-cased, is "true", or the
    value is written "1"; in particular "true", "True" and "1" are true
    and "false", "0", the empty string, "yes" and "TRUE " are false. *)
Theorem is_available_parse :
  (∀ x : cell,
     is_available_of_field x = true ↔
     Py.lower (py_str x) = "true" ∨ py_str x = "1") ∧
  is_available_of_field (SStr "true") = true ∧
  is_available_of_field (SStr "True") = true ∧
  is_available_of_field (SStr "1") = true ∧
  is_available_of_field (SStr "false") = false ∧
  is_available_of_field (SStr "0") = false ∧
  is_available_of_field (SStr "") = false ∧
  is_available_of_field (SStr "yes") = false ∧
  is_available_of_field (SStr "TRUE ") = false.
Proof.
  split; [|repeat split; reflexivity].
  intros x. unfold is_available_of_field.
  case_bool_decide as Hin; split; try done.
  - intros _. apply elem_of_cons in Hin as [Ht|Hin]; [by left|].
    apply list_elem_of_singleton in Hin. right. by apply lower_one.
  - intros [Ht| H1]; exfalso; apply Hin.
    + rewrite Ht. set_solver.
    + rewrite H1. set_solver.
Qed.
(** *** Fresh stores *)

Lemma read_or_empty_fresh f cols :
  f = Absent ∨ f = Blank → read_or_empty f cols = Ok (empty_frame cols).
Proof. by intros [-> | ->]. Qed.

(** C8: when the file of the listings is absent or empty, [load_data]
    returns the frame without rows (it does not raise), and so does
    [load_bookings] for the file of the bookings. *)
Theorem load_fresh_store (f other : file) :
  f = Absent ∨ f = Blank →
  (load_data {| DATA_FILE := f; BOOKINGS_FILE := other |}
     = Ok (empty_frame hoarding_columns) ∧
   rows (empty_frame hoarding_columns) = []) ∧
  (load_bookings {| DATA_FILE := other; BOOKINGS_FILE := f |}
     = Ok (empty_frame booking_columns) ∧
   rows (empty_frame booking_columns) = []).
Proof.
  intros Hf. split; split; try reflexivity.
  - unfold load_data; simpl. by rewrite (read_or_empty_fresh _ _ Hf).
  - unfold load_bookings; simpl. by apply read_or_empty_fresh.
Qed.

(** *** Booking creation *)

Lemma load_bookings_readable d :
  BOOKINGS_FILE d ≠ Malformed → ∃ bdf, load_bookings d = Ok bdf.
Proof.
  unfold load_bookings, read_or_empty.
  destruct (BOOKINGS_FILE d); simpl; intros Hm; by eauto.
Qed.

Lemma truthy_nonempty s : Py.truthy s = true ↔ s ≠ "".
Proof. by destruct s. Qed.

Lemma truthy_empty s : Py.truthy s = false ↔ s = "".
Proof. by destruct s. Qed.

Lemma pd_concat_rows df1 df2 :
  rows (pd_concat df1 df2) =
  (reindex (columns (pd_concat df1 df2)) <$> rows df1) ++
  (reindex (columns (pd_concat df1 df2)) <$> rows df2).
Proof. unfold pd_concat; simpl. by rewrite fmap_app. Qed.

(** C4: a submitted booking with an empty name, phone or email, or with
    an end date before its start date, is refused with an error message
    and both files are left as they were. *)
Theorem booking_rejected uuid4 hoarding_id w d :
  confirm_booking w = true →
  BOOKINGS_FILE d ≠ Malformed →
  user_name w = "" ∨ phone w = "" ∨ email w = "" ∨
    date_lt (end_date w) (start_date w) = true →
  ∃ msg,
    msg ∈ ["Please fill all required fields.";
           "End date cannot be before start date."] ∧
    booking_form uuid4 hoarding_id w d = Ok (d, [st_error msg]).
Proof.
  intros Hc Hm Hbad. destruct (load_bookings_readable d Hm) as [bdf Hb].
  unfold booking_form. rewrite Hb; simpl. rewrite Hc.
  destruct (negb (Py.truthy (user_name w)) || negb (Py.truthy (phone w))
            || negb (Py.truthy (email w))) eqn:Hf.
  { eexists; split; [|reflexivity]. apply elem_of_cons; by left. }
  apply orb_false_elim in Hf as [Hf He].
  apply orb_false_elim in Hf as [Hu Hp].
  apply negb_false_iff, truthy_nonempty in Hu, Hp, He.
  destruct Hbad as [Hx|[Hx|[Hx|Hd]]]; [done..|].
  rewrite Hd. eexists; split; [|reflexivity].
  apply elem_of_cons; right. apply elem_of_cons; by left.
Qed.

(** C1: a submitted booking with a name, a phone and an email, whose end
    date is not before its start date, is appended to the bookings and
    saved, whatever [hoarding_id] is and whatever the file of the
    listings holds: the listings are not consulted. *)
Theorem booking_created uuid4 hoarding_id w d :
  confirm_booking w = true →
  BOOKINGS_FILE d ≠ Malformed →
  user_name w ≠ "" → phone w ≠ "" → email w ≠ "" →
  date_lt (end_date w) (start_date w) = false →
  ∃ bdf,
    load_bookings d = Ok bdf ∧
    let one := frame_of_dict (new_booking uuid4 hoarding_id w) in
    let bdf' := pd_concat bdf one in
    booking_form uuid4 hoarding_id w d =
      Ok ({| DATA_FILE := DATA_FILE d; BOOKINGS_FILE := to_csv bdf' |},
          [st_success "Booking created successfully!"; st_balloons]) ∧
    rows bdf' =
      (reindex (columns bdf') <$> rows bdf) ++
      [reindex (columns bdf') (list_to_map (new_booking uuid4 hoarding_id w))] ∧
    row_get (list_to_map (new_booking uuid4 hoarding_id w)) "hoarding_id"
      = hoarding_id.
Proof.
  intros Hc Hm Hu Hp He Hd. destruct (load_bookings_readable d Hm) as [bdf Hb].
  exists bdf. split; [done|]. cbv zeta. split; [|split].
  - unfold booking_form. rewrite Hb; simpl. rewrite Hc.
    apply truthy_nonempty in Hu, Hp, He. rewrite Hu, Hp, He, Hd. done.
  - by rewrite pd_concat_rows.
  - reflexivity.
Qed.

(** *** Frames: general facts *)

Lemma traverse_ok {A B} (f : A → result B) (g : A → B) (l : list A) :
  Forall (λ a, f a = Ok (g a)) l → traverse f l = Ok (g <$> l).
Proof.
  induction 1 as [|a l Ha _ IH]; simpl; [done|].
  rewrite Ha; simpl. by rewrite IH.
Qed.

Lemma get_ok_eq {A} (d : A) (r : result A) :
  (∃ a, r = Ok a) → r = Ok (get_ok d r).
Proof. by intros [a ->]. Qed.

Lemma series_apply_total col f (d : cell) df :
  col ∈ columns df →
  Forall (λ r, ∃ v, f (row_get r col) = Ok v) (rows df) →
  series_apply col f df =
    Ok {| columns := columns df;
          rows := (λ r, <[col := get_ok d (f (row_get r col))]> r) <$>
                  rows df |}.
Proof.
  intros Hc Hall. unfold series_apply. rewrite bool_decide_eq_true_2 by done.
  rewrite (traverse_ok _ (λ r, <[col := get_ok d (f (row_get r col))]> r)).
  - done.
  - eapply Forall_impl; [exact Hall|]. intros r Hr; simpl.
    by rewrite (get_ok_eq d _ Hr) at 1.
Qed.

Lemma lookup_tabulate {V} (cols : list string) (g : string → V) c :
  tabulate cols g !! c = if bool_decide (c ∈ cols) then Some (g c) else None.
Proof.
  unfold tabulate. case_bool_decide as Hc.
  - apply elem_of_list_to_map_1'.
    + intros y [c' [[= <- <-] _]]%list_elem_of_fmap. done.
    + apply list_elem_of_fmap. by exists c.
  - apply not_elem_of_list_to_map_1. rewrite <- list_fmap_compose.
    change (c ∉ id <$> cols). by rewrite list_fmap_id.
Qed.

(** *** The closed form of [load_data] on a table *)

Lemma filter_not_elem_snoc (cols cs : list string) c :
  c ∉ cs →
  filter (λ x, x ∉ cols ++ [c]) cs = filter (λ x, x ∉ cols) cs.
Proof.
  induction cs as [|a cs IH]; [done|]. intros Hc.
  apply not_elem_of_cons in Hc as [Hne Hc].
  rewrite !filter_cons, IH by done.
  destruct (decide (a ∉ cols ++ [c])) as [Ha|Ha], (decide (a ∉ cols)) as [Hb|Hb];
    try done; exfalso.
  - apply Ha. apply elem_of_app. left. by apply dec_stable.
  - apply Ha. intros [Hin|Hin%list_elem_of_singleton]%elem_of_app; done.
Qed.

Lemma foldl_defaults_snoc (cols cs : list string) c (r : gmap string cell) :
  c ∉ cs →
  foldl (λ r col, if bool_decide (col ∉ cols ++ [c])
                  then <[col := Scalar (SStr "")]> r else r) r cs =
  foldl (λ r col, if bool_decide (col ∉ cols)
                  then <[col := Scalar (SStr "")]> r else r) r cs.
Proof.
  revert r. induction cs as [|a cs IH]; [done|]. intros r Hc.
  apply not_elem_of_cons in Hc as [Hne Hc]. simpl. rewrite IH by done.
  f_equal. rewrite (bool_decide_ext (a ∉ cols ++ [c]) (a ∉ cols)); [done|].
  rewrite elem_of_app, list_elem_of_singleton.
  split; intros Hn Ha; apply Hn; [by left|]. by destruct Ha.
Qed.

Lemma ensure_columns_gen (cs : list string) df :
  NoDup cs →
  foldl (λ df col, if bool_decide (col ∉ columns df)
                   then set_column col (Scalar (SStr "")) df else df) df cs =
  {| columns := columns df ++ filter (λ c, c ∉ columns df) cs;
     rows := (λ r, foldl (λ r col, if bool_decide (col ∉ columns df)
                                   then <[col := Scalar (SStr "")]> r else r)
                          r cs) <$> rows df |}.
Proof.
  intros Hnd. revert df. induction Hnd as [|c cs Hc Hnd IH]; intros df.
  { simpl. rewrite app_nil_r, list_fmap_id. by destruct df. }
  simpl. rewrite IH. destruct (decide (c ∈ columns df)) as [Hin|Hin].
  - rewrite bool_decide_eq_false_2 by (by intros Hn).
    rewrite filter_cons_False by (by intros Hn). done.
  - rewrite bool_decide_eq_true_2 by done.
    rewrite filter_cons_True by done. unfold set_column; simpl.
    rewrite bool_decide_eq_false_2 by done. f_equal.
    + rewrite filter_not_elem_snoc by done. by rewrite <- app_assoc.
    + rewrite <- list_fmap_compose. apply list_fmap_ext. intros i r _; simpl.
      by rewrite foldl_defaults_snoc.
Qed.

Lemma ensure_columns df :
  foldl (λ df col, if bool_decide (col ∉ columns df)
                   then set_column col (Scalar (SStr "")) df else df)
        df optional_columns =
  {| columns := load_columns (columns df);
     rows := with_defaults (columns df) <$> rows df |}.
Proof.
  apply ensure_columns_gen. unfold optional_columns.
  apply (bool_decide_unpack _). by vm_compute.
Qed.

Lemma lookup_foldl_defaults (cols cs : list string) (r : gmap string cell) k :
  foldl (λ r col, if bool_decide (col ∉ cols)
                  then <[col := Scalar (SStr "")]> r else r) r cs !! k =
  if bool_decide (k ∈ cs ∧ k ∉ cols) then Some (Scalar (SStr "")) else r !! k.
Proof.
  revert r. induction cs as [|c cs IH]; intros r; cbn [foldl].
  { rewrite bool_decide_eq_false_2; [done|]. by intros [?%elem_of_nil _]. }
  rewrite IH.
  destruct (decide (k = c)) as [->|Hne]; repeat case_bool_decide;
    simplify_map_eq; try done; exfalso; set_solver.
Qed.

Lemma lookup_with_defaults cols (r : gmap string cell) k :
  with_defaults cols r !! k =
  if bool_decide (k ∈ optional_columns ∧ k ∉ cols)
  then Some (Scalar (SStr "")) else r !! k.
Proof. apply lookup_foldl_defaults. Qed.

Lemma elem_of_load_columns cols k :
  k ∈ load_columns cols ↔ k ∈ cols ∨ k ∈ optional_columns.
Proof.
  unfold load_columns. rewrite elem_of_app, list_elem_of_filter.
  destruct (decide (k ∈ cols)); naive_solver.
Qed.

Lemma bind_ok {A B} (a : A) (k : A → result B) : (Ok a ≫= k) = k a.
Proof. done. Qed.

Lemma images_optional : "images" ∈ optional_columns.
Proof. apply (bool_decide_unpack _). by vm_compute. Qed.

Lemma price_not_optional : "price" ∉ optional_columns.
Proof. apply (bool_decide_unpack _). by vm_compute. Qed.

Lemma is_available_not_optional : "is_available" ∉ optional_columns.
Proof. apply (bool_decide_unpack _). by vm_compute. Qed.

Lemma row_get_read_record cols rec k :
  k ∈ cols →
  row_get (read_record cols rec) k = Scalar (csv_field (default SNaN (rec !! k))).
Proof.
  intros Hk. unfold row_get, read_record. rewrite lookup_tabulate.
  by rewrite bool_decide_eq_true_2.
Qed.

Lemma images_of_loaded_field cols rec :
  images_text rec = true →
  ∃ v, images_of_field
         (row_get (with_defaults cols (read_record cols rec)) "images") = Ok v.
Proof.
  intros Ht. unfold row_get. rewrite lookup_with_defaults.
  case_bool_decide as Hd; simpl; [by eexists|].
  unfold read_record. rewrite lookup_tabulate.
  case_bool_decide as Hc; simpl; [|by eexists].
  unfold images_text in Ht.
  destruct (rec !! "images") as [[[|c s]|b|n|]|]; simpl in *; try done;
    by eexists.
Qed.

Lemma pd_to_numeric_scalar (x : scalar) : ∃ v, pd_to_numeric (Scalar x) = Ok v.
Proof. destruct x; simpl; try by eexists. destruct (parse_number s); by eexists. Qed.

Lemma elem_of_load_columns_plain cols k :
  k ∉ optional_columns →
  bool_decide (k ∈ load_columns cols) = bool_decide (k ∈ cols).
Proof.
  intros Hk. apply bool_decide_ext. rewrite elem_of_load_columns.
  split; [intros [Hp|Hp]; [done|by apply Hk in Hp]|by left].
Qed.

Lemma load_data_table t other :
  Forall (λ rec, images_text rec = true) (records t) →
  load_data {| DATA_FILE := Table t; BOOKINGS_FILE := other |} =
  Ok {| columns := load_columns (header t);
        rows := load_row (header t) <$> records t |}.
Proof.
  intros Himg. unfold load_data. cbn [DATA_FILE read_or_empty pd_read_csv].
  rewrite bind_ok, ensure_columns. cbn [columns rows].
  rewrite bool_decide_eq_true_2
    by (apply elem_of_load_columns; right; apply images_optional).
  rewrite (series_apply_total _ _ (Scalar SNaN)); cbn [columns rows].
  2:{ apply elem_of_load_columns; right; apply images_optional. }
  2:{ apply Forall_fmap, Forall_fmap.
      eapply Forall_impl; [exact Himg|]. intros rec Hr; simpl.
      by apply images_of_loaded_field. }
  rewrite bind_ok. cbn [columns rows].
  rewrite <- !list_fmap_compose.
  rewrite (elem_of_load_columns_plain _ _ price_not_optional).
  unfold load_row.
  destruct (bool_decide ("price" ∈ header t)) eqn:Ep.
  - rewrite (series_apply_total _ _ (Scalar SNaN)); cbn [columns rows].
    2:{ apply elem_of_load_columns; left.
        exact (proj1 (bool_decide_eq_true _) Ep). }
    2:{ apply Forall_fmap, Forall_forall. intros rec _; simpl.
        unfold row_get at 1. rewrite lookup_insert_ne by done.
        rewrite lookup_with_defaults.
        rewrite bool_decide_eq_false_2
          by (intros [Hd _]; by apply price_not_optional in Hd).
        unfold read_record. rewrite lookup_tabulate, Ep.
        apply pd_to_numeric_scalar. }
    rewrite bind_ok. cbn [columns rows]. rewrite <- !list_fmap_compose.
    rewrite (elem_of_load_columns_plain _ _ is_available_not_optional).
    destruct (bool_decide ("is_available" ∈ header t)) eqn:Ea; [|done].
    rewrite (series_apply_total _ _ (Scalar SNaN)); cbn [columns rows].
    + rewrite bind_ok. by rewrite <- !list_fmap_compose.
    + apply elem_of_load_columns; left.
      exact (proj1 (bool_decide_eq_true _) Ea).
    + apply Forall_fmap, Forall_forall. intros rec _. by eexists.
  - rewrite bind_ok. cbn [columns rows].
    rewrite (elem_of_load_columns_plain _ _ is_available_not_optional).
    destruct (bool_decide ("is_available" ∈ header t)) eqn:Ea; [|done].
    rewrite (series_apply_total _ _ (Scalar SNaN)); cbn [columns rows].
    + rewrite bind_ok. by rewrite <- !list_fmap_compose.
    + apply elem_of_load_columns; left.
      exact (proj1 (bool_decide_eq_true _) Ea).
    + apply Forall_fmap, Forall_forall. intros rec _. by eexists.
Qed.

(** *** Price coercion *)

Lemma bind_raise {A B} e (k : A → result B) : (Raise e ≫= k) = Raise e.
Proof. done. Qed.

Lemma row_get_insert_ne (r : gmap string cell) k k' v :
  k ≠ k' → row_get (<[k := v]> r) k' = row_get r k'.
Proof. intros Hne. unfold row_get. by rewrite lookup_insert_ne. Qed.

Lemma row_get_insert_eq (r : gmap string cell) k v :
  row_get (<[k := v]> r) k = v.
Proof. unfold row_get. by rewrite lookup_insert_eq. Qed.

Lemma row_get_with_defaults cols (r : gmap string cell) k :
  k ∉ optional_columns → row_get (with_defaults cols r) k = row_get r k.
Proof.
  intros Hk. unfold row_get. rewrite lookup_with_defaults.
  rewrite bool_decide_eq_false_2; [done|]. by intros [Hin _].
Qed.

Lemma load_row_price cols rec :
  "price" ∈ cols →
  row_get (load_row cols rec) "price" =
  get_ok (Scalar SNaN)
    (pd_to_numeric (Scalar (csv_field (default SNaN (rec !! "price"))))).
Proof.
  intros Hp. unfold load_row. rewrite (bool_decide_eq_true_2 _ Hp).
  assert (Hg : ∀ r : gmap string cell,
    row_get (if bool_decide ("is_available" ∈ cols)
             then <["is_available" :=
                 Scalar (SBool (is_available_of_field (row_get r "is_available")))]> r
             else r) "price" = row_get r "price").
  { intros r. case_bool_decide; [by rewrite row_get_insert_ne|done]. }
  rewrite Hg, row_get_insert_eq, row_get_insert_ne by done.
  rewrite row_get_with_defaults by apply price_not_optional.
  by rewrite row_get_read_record.
Qed.

Lemma hoarding_card_price df r c :
  hoarding_card df r = Ok c → card_price c = price_text (row_get r "price").
Proof.
  unfold hoarding_card, getitem.
  repeat match goal with
         | |- ((if bool_decide ?P then _ else _) ≫= _) = _ → _ =>
             destruct (bool_decide P);
             [rewrite bind_ok|rewrite bind_raise; by intros [=]]
         end.
  by intros [= <-].
Qed.

(** C7: a stored price that does not read as a number is loaded as NaN
    (absent), the conversion of a stored value never raises, and the card
    of the listing shows "N/A" for it. *)
Theorem price_unparseable_absent t other i rec s :
  Forall (λ rec, images_text rec = true) (records t) →
  "price" ∈ header t →
  records t !! i = Some rec →
  rec !! "price" = Some (SStr s) →
  parse_number s = None →
  (∀ x : scalar, ∃ v, pd_to_numeric (Scalar x) = Ok v) ∧
  ∃ df r,
    load_data {| DATA_FILE := Table t; BOOKINGS_FILE := other |} = Ok df ∧
    rows df !! i = Some r ∧
    row_get r "price" = Scalar SNaN ∧
    price_text (row_get r "price") = "N/A" ∧
    ∀ c, hoarding_card df r = Ok c → card_price c = "N/A".
Proof.
  intros Himg Hp Hi Hs Hn. split; [apply pd_to_numeric_scalar|].
  eexists _, (load_row (header t) rec).
  split; [by apply load_data_table|]. cbn [rows columns].
  assert (Hprice : row_get (load_row (header t) rec) "price" = Scalar SNaN).
  { rewrite load_row_price by done. rewrite Hs; simpl.
    destruct s; simpl; [done|]. by rewrite Hn. }
  split; [by rewrite list_lookup_fmap, Hi|].
  split; [done|]. split; [by rewrite Hprice|].
  intros c Hc. apply hoarding_card_price in Hc. by rewrite Hc, Hprice.
Qed.

(** *** Round trip through the file *)

Lemma split_cons sep s : ∃ h t, Py.split sep s = h :: t.
Proof.
  induction s as [|c s [h [t IH]]]; simpl; [by eexists _, _|].
  destruct (Ascii.eqb c sep); [by eexists _, _|]. rewrite IH. by eexists _, _.
Qed.

Lemma join_cons sep x h t :
  Py.join sep (x :: h :: t) = x +:+ sep +:+ Py.join sep (h :: t).
Proof. done. Qed.

Lemma join_split sep s : Py.join (String sep EmptyString) (Py.split sep s) = s.
Proof.
  induction s as [|c s IH]; [done|]. cbn [Py.split].
  destruct (split_cons sep s) as [h [t Hs]]. rewrite Hs in *.
  destruct (Ascii.eqb c sep) eqn:Ec.
  - apply Ascii.eqb_eq in Ec as ->. rewrite join_cons, IH. done.
  - destruct t as [|h' t].
    + simpl in *. by rewrite IH.
    + rewrite join_cons. rewrite join_cons in IH. by rewrite <- IH.
Qed.

Lemma filter_present (cols l : list string) :
  l ⊆ cols → filter (λ c, c ∉ cols) l = [].
Proof.
  induction l as [|a l IH]; [done|]. intros Hsub.
  rewrite filter_cons_False.
  - apply IH. intros x Hx. apply Hsub. by right.
  - intros Hn. apply Hn, Hsub. by left.
Qed.

Lemma load_columns_id cols :
  optional_columns ⊆ cols → load_columns cols = cols.
Proof.
  intros Hsub. unfold load_columns.
  by rewrite filter_present, app_nil_r.
Qed.

Lemma lookup_with_defaults_id cols (r : gmap string cell) k :
  optional_columns ⊆ cols → with_defaults cols r !! k = r !! k.
Proof.
  intros Hsub. rewrite lookup_with_defaults.
  rewrite bool_decide_eq_false_2; [done|].
  intros [Hin Hn]. by apply Hn, Hsub.
Qed.

Lemma lookup_load_row cols rec k :
  optional_columns ⊆ cols →
  load_row cols rec !! k =
  if bool_decide (k ∈ cols) then Some (loaded_cell rec k) else None.
Proof.
  intros Hsub.
  assert (Himg : "images" ∈ cols) by apply Hsub, images_optional.
  assert (Hr0 : ∀ k', with_defaults cols (read_record cols rec) !! k' =
                if bool_decide (k' ∈ cols)
                then Some (Scalar (read_field rec k')) else None).
  { intros k'. rewrite lookup_with_defaults_id by done.
    unfold read_record. by rewrite lookup_tabulate. }
  unfold load_row, loaded_cell, cell_of_field, row_get.
  destruct (String.eqb_spec k "images") as [->|Hki].
  { rewrite (bool_decide_eq_true_2 _ Himg).
    repeat case_bool_decide; simplify_map_eq; rewrite ?Hr0;
      by rewrite ?(bool_decide_eq_true_2 _ Himg). }
  destruct (String.eqb_spec k "price") as [->|Hkp].
  { repeat case_bool_decide; simplify_map_eq; rewrite ?Hr0;
      by repeat case_bool_decide. }
  destruct (String.eqb_spec k "is_available") as [->|Hka].
  { repeat case_bool_decide; simplify_map_eq; rewrite ?Hr0;
      by repeat case_bool_decide. }
  repeat case_bool_decide; simplify_map_eq; rewrite ?Hr0;
    by repeat case_bool_decide.
Qed.

Lemma load_row_tabulate cols rec :
  optional_columns ⊆ cols → load_row cols rec = tabulate cols (loaded_cell rec).
Proof.
  intros Hsub. apply map_eq. intros k.
  by rewrite lookup_load_row, lookup_tabulate.
Qed.

Lemma tabulate_ext {V} cols (g g' : string → V) :
  (∀ k, k ∈ cols → g k = g' k) → tabulate cols g = tabulate cols g'.
Proof.
  intros Hg. apply map_eq. intros k. rewrite !lookup_tabulate.
  case_bool_decide; [by rewrite Hg|done].
Qed.

Lemma row_get_tabulate cols (g : string → cell) k :
  k ∈ cols → row_get (tabulate cols g) k = g k.
Proof.
  intros Hk. unfold row_get. by rewrite lookup_tabulate, bool_decide_eq_true_2.
Qed.

Lemma csv_field_idemp x : csv_field (csv_field x) = csv_field x.
Proof. by destruct x as [[|c s]|b|n|]. Qed.

Lemma field_of_images_list l :
  field_of_images (CList l) = Ok (Scalar (SStr (Py.join "|" l))).
Proof. by destruct l. Qed.

(** The field of a record that is text or empty is loaded as a list, and
    the list is saved as the field it came from. *)
Lemma images_field_round_trip (x : scalar) :
  (∀ b, x ≠ SBool b) → (∀ n, x ≠ SNum n) →
  ∃ l, cell_of_field "images" (csv_field x) = CList l ∧
       csv_field (SStr (Py.join "|" l)) = csv_field x.
Proof.
  intros Hb Hn. unfold cell_of_field; simpl.
  destruct x as [[|c s]|b|n|]; simpl.
  - by exists [].
  - exists (Py.split "|" (String c s)). split; [done|].
    by rewrite (join_split "|" (String c s)).
  - by destruct (Hb b).
  - by destruct (Hn n).
  - by exists [].
Qed.

Lemma is_available_of_bool b : is_available_of_field (Scalar (SBool b)) = b.
Proof. by destruct b. Qed.

Lemma cell_of_field_stable k (x : scalar) :
  (k = "images" → (∀ b, x ≠ SBool b) ∧ (∀ n, x ≠ SNum n)) →
  cell_of_field k
    (csv_field (csv_of_cell (saved_cell k (cell_of_field k (csv_field x)))))
  = cell_of_field k (csv_field x).
Proof.
  intros Himg. unfold saved_cell.
  destruct (String.eqb_spec k "images") as [->|Hki].
  { destruct (Himg eq_refl) as [Hb Hn].
    destruct (images_field_round_trip x Hb Hn) as [l [Hl Hj]].
    rewrite Hl, field_of_images_list. cbn [get_ok csv_of_cell].
    by rewrite csv_field_idemp, Hj, Hl. }
  unfold cell_of_field.
  rewrite (proj2 (String.eqb_neq _ _) Hki).
  destruct (String.eqb k "price").
  { destruct x as [[|c s]|b|n|]; simpl; try done.
    destruct (parse_number (String c s)); by simpl. }
  destruct (String.eqb k "is_available").
  { cbn [csv_of_cell csv_field]. by rewrite is_available_of_bool. }
  cbn [csv_of_cell]. by rewrite !csv_field_idemp.
Qed.

Lemma images_text_field rec :
  images_text rec = true →
  (∀ b, default SNaN (rec !! "images") ≠ SBool b) ∧
  (∀ n, default SNaN (rec !! "images") ≠ SNum n).
Proof.
  unfold images_text.
  destruct (rec !! "images") as [[s|b|n|]|]; simpl; by intros Ht.
Qed.

Lemma loaded_images rec :
  images_text rec = true →
  ∃ l, loaded_cell rec "images" = CList l ∧
       csv_field (SStr (Py.join "|" l)) = read_field rec "images".
Proof.
  intros [Hb Hn]%images_text_field.
  by apply images_field_round_trip.
Qed.

(** What [save_data] leaves in memory and on disk for a loaded frame. *)
Lemma save_data_loaded cols (recs : list (gmap string scalar)) d :
  "images" ∈ cols →
  Forall (λ rec, images_text rec = true) recs →
  let dfs := {| columns := cols;
                rows := (λ rec, <["images" :=
                                   saved_cell "images" (loaded_cell rec "images")]>
                                (tabulate cols (loaded_cell rec))) <$> recs |} in
  save_data {| columns := cols;
               rows := (λ rec, tabulate cols (loaded_cell rec)) <$> recs |} d =
  Ok (dfs, {| DATA_FILE := to_csv dfs; BOOKINGS_FILE := BOOKINGS_FILE d |}).
Proof.
  intros Hc Himg dfs. unfold save_data. cbn [columns].
  rewrite (bool_decide_eq_true_2 _ Hc).
  rewrite (series_apply_total _ _ (Scalar SNaN)); cbn [columns rows]; [|done|].
  - rewrite bind_ok. unfold dfs. rewrite <- list_fmap_compose.
    erewrite list_fmap_ext; [reflexivity|].
    intros i rec _; simpl. by rewrite row_get_tabulate.
  - apply Forall_fmap. eapply Forall_impl; [exact Himg|].
    intros rec Hr; simpl. rewrite row_get_tabulate by done.
    destruct (loaded_images rec Hr) as [l [-> _]].
    rewrite field_of_images_list. by eexists.
Qed.


(** *** What every loaded frame satisfies *)

Lemma traverse_inv {A B} (f : A → result B) l l' :
  traverse f l = Ok l' → Forall2 (λ a b, f a = Ok b) l l'.
Proof.
  revert l'. induction l as [|a l IH]; simpl; intros l'.
  { intros [= <-]. constructor. }
  destruct (f a) as [b|e] eqn:Ha; simpl; [|done].
  destruct (traverse f l) as [bs|e] eqn:Hl; simpl; [|done].
  intros [= <-]. constructor; [done|]. by apply IH.
Qed.

Lemma series_apply_inv col f df df' :
  series_apply col f df = Ok df' →
  columns df' = columns df ∧
  Forall2 (λ r r', ∃ v, f (row_get r col) = Ok v ∧ r' = <[col := v]> r)
          (rows df) (rows df').
Proof.
  unfold series_apply. case_bool_decide; [|done].
  destruct (traverse _ (rows df)) as [rs|e] eqn:Ht; simpl; [|done].
  intros [= <-]. split; [done|]. cbn [rows].
  apply traverse_inv in Ht. eapply Forall2_impl; [exact Ht|].
  intros r r' Hr; simpl in Hr.
  destruct (f (row_get r col)) as [v|e]; simpl in Hr; [|done].
  injection Hr as <-. by eexists.
Qed.

Lemma images_of_field_list x v : images_of_field x = Ok v → ∃ l, v = CList l.
Proof.
  destruct x as [[s|b|n|]|[|a [|a' l]]]; simpl; try done.
  - destruct (Py.truthy s); intros [= <-]; by eexists.
  - intros [= <-]; by eexists.
Qed.

(** The frame that a column conversion returns keeps the lists of the
    [images] column when it converts another column. *)
Lemma series_apply_keeps_images col f df df' :
  col ≠ "images" →
  series_apply col f df = Ok df' →
  Forall (λ r, ∃ l, row_get r "images" = CList l) (rows df) →
  Forall (λ r, ∃ l, row_get r "images" = CList l) (rows df').
Proof.
  intros Hne [_ Hrows]%series_apply_inv Hall.
  induction Hrows as [|r r' rs rs' [v [_ ->]] _ IH]; [constructor|].
  apply Forall_cons in Hall as [Hr Hall]. constructor; [|by apply IH].
  by rewrite row_get_insert_ne.
Qed.

Lemma load_data_images d df :
  load_data d = Ok df →
  "images" ∈ columns df ∧
  Forall (λ r, ∃ l, row_get r "images" = CList l) (rows df).
Proof.
  unfold load_data.
  destruct (read_or_empty (DATA_FILE d) hoarding_columns) as [df0|e]; [|done].
  rewrite bind_ok, ensure_columns.
  set (df1 := {| columns := load_columns (columns df0);
                 rows := with_defaults (columns df0) <$> rows df0 |}).
  assert (Hc1 : "images" ∈ columns df1)
    by (apply elem_of_load_columns; right; apply images_optional).
  rewrite (bool_decide_eq_true_2 _ Hc1).
  destruct (series_apply "images" images_of_field df1) as [df2|e] eqn:H2;
    [|done].
  rewrite bind_ok.
  pose proof (series_apply_inv _ _ _ _ H2) as [Hc2 Hr2].
  assert (Hl2 : Forall (λ r, ∃ l, row_get r "images" = CList l) (rows df2)).
  { clear -Hr2. induction Hr2 as [|r r' rs rs' [v [Hv ->]] _ IH]; constructor;
      [|done]. rewrite row_get_insert_eq. by eapply images_of_field_list. }
  assert (Hstep : ∀ col f (dfa : frame),
    col ≠ "images" →
    "images" ∈ columns dfa →
    Forall (λ r, ∃ l, row_get r "images" = CList l) (rows dfa) →
    ∀ dfb, (if bool_decide (col ∈ columns dfa)
            then series_apply col f dfa else Ok dfa) = Ok dfb →
    "images" ∈ columns dfb ∧
    Forall (λ r, ∃ l, row_get r "images" = CList l) (rows dfb)).
  { intros col f dfa Hne Hca Hla dfb. case_bool_decide.
    - intros Hs. split; [|by eapply series_apply_keeps_images].
      apply series_apply_inv in Hs as [-> _]. done.
    - by intros [= <-]. }
  destruct (if bool_decide ("price" ∈ columns df2) then _ else _)
    as [df3|e] eqn:H3; [|done].
  rewrite bind_ok.
  destruct (Hstep "price" _ df2 ltac:(done) ltac:(by rewrite Hc2) Hl2 _ H3)
    as [Hc3 Hl3].
  destruct (if bool_decide ("is_available" ∈ columns df3) then _ else _)
    as [df4|e] eqn:H4; [|done].
  rewrite bind_ok. intros [= <-].
  by apply (Hstep "is_available" _ df3 ltac:(done) Hc3 Hl3 _ H4).
Qed.

(** *** Saving a frame whose images are lists *)

Lemma save_data_lists df d :
  "images" ∈ columns df →
  Forall (λ r, ∃ l, row_get r "images" = CList l) (rows df) →
  save_data df d =
  Ok (saved_frame df,
      {| DATA_FILE := to_csv (saved_frame df);
         BOOKINGS_FILE := BOOKINGS_FILE d |}).
Proof.
  intros Hc Hl. unfold save_data.
  rewrite (bool_decide_eq_true_2 _ Hc).
  rewrite (series_apply_total _ _ (Scalar SNaN)); [done|done|].
  eapply Forall_impl; [exact Hl|]. intros r [l ->].
  rewrite field_of_images_list. by eexists.
Qed.

Lemma lookup_reindex cols (r : gmap string cell) k :
  reindex cols r !! k =
  match r !! k with
  | Some v => Some v
  | None => if bool_decide (k ∈ cols) then Some (Scalar SNaN) else None
  end.
Proof.
  unfold reindex. induction cols as [|c cols IH]; cbn [foldr].
  { destruct (r !! k); [done|]. rewrite bool_decide_eq_false_2; [done|].
    apply not_elem_of_nil. }
  destruct (decide (k = c)) as [->|Hne].
  - rewrite (bool_decide_eq_true_2 (c ∈ c :: cols)) by (by left).
    destruct (foldr _ r cols !! c) as [v|] eqn:Hc.
    + rewrite Hc, IH. destruct (r !! c); [done|]. by case_bool_decide.
    + rewrite lookup_insert_eq. by destruct (r !! c).
  - assert (Hk : bool_decide (k ∈ c :: cols) = bool_decide (k ∈ cols)).
    { apply bool_decide_ext. rewrite elem_of_cons. by intuition. }
    rewrite Hk.
    destruct (foldr _ r cols !! c); [done|]. by rewrite lookup_insert_ne.
Qed.

Lemma row_get_reindex cols (r : gmap string cell) k :
  row_get (reindex cols r) k = row_get r k.
Proof.
  unfold row_get. rewrite lookup_reindex.
  destruct (r !! k); [done|]. by case_bool_decide.
Qed.

(** *** Adding a listing *)

Lemma elem_of_concat_columns df1 df2 k :
  k ∈ columns (pd_concat df1 df2) ↔ k ∈ columns df1 ∨ k ∈ columns df2.
Proof.
  unfold pd_concat; cbn [columns]. rewrite elem_of_app, list_elem_of_filter.
  destruct (decide (k ∈ columns df1)); by intuition.
Qed.

Lemma column_cells_saved_frame name df :
  name ≠ "images" →
  column_cells name (saved_frame df) = column_cells name df.
Proof.
  intros Hne. unfold column_cells, saved_frame. cbn [rows].
  rewrite <- list_fmap_compose. apply list_fmap_ext. intros i r _. simpl.
  by rewrite row_get_insert_ne.
Qed.

Lemma column_cells_concat name df1 df2 :
  column_cells name (pd_concat df1 df2)
    = column_cells name df1 ++ column_cells name df2.
Proof.
  unfold column_cells. rewrite pd_concat_rows, fmap_app.
  rewrite <- !list_fmap_compose.
  f_equal; apply list_fmap_ext; intros i r _; simpl; apply row_get_reindex.
Qed.


(** *** Editing a listing *)

Lemma set_at_present i key v df :
  key ∈ columns df →
  set_at i key v df =
  {| columns := columns df; rows := alter (<[key := v]>) i (rows df) |}.
Proof. intros Hk. unfold set_at. by rewrite bool_decide_eq_true_2. Qed.

Lemma apply_updates_present i (us : list (string * cell)) df :
  Forall (λ kv, kv.1 ∈ columns df) us →
  apply_updates i us df =
  {| columns := columns df;
     rows := alter (λ r, foldl (λ r kv, <[kv.1 := kv.2]> r) r us) i (rows df) |}.
Proof.
  unfold apply_updates. revert df.
  induction us as [|[k v] us IH]; intros df Hus; cbn [foldl].
  { destruct df as [cols rs]; cbn [columns rows]. f_equal.
    symmetry. by apply list_alter_id. }
  apply Forall_cons in Hus as [Hk Hus]. cbn [fst snd] in *.
  rewrite set_at_present by done. rewrite IH by done. cbn [columns rows].
  f_equal. by rewrite list_alter_alter_eq.
Qed.

Lemma select_first {A} (mask : list bool) (l : list A) j a :
  length mask = length l →
  first_true mask = Some j → l !! j = Some a →
  ∃ rest, select mask l = a :: rest.
Proof.
  revert l j. induction mask as [|b mask IH]; intros [|x l] j Hlen; try done.
  destruct b; cbn [first_true select].
  - intros [= <-] [= <-]. by eexists.
  - destruct (first_true mask) as [j'|] eqn:Hf; [|done].
    intros [= <-] Hl. apply (IH l j'); [by injection Hlen|done|done].
Qed.

Lemma id_mask_ok df hid :
  "id" ∈ columns df →
  id_mask df hid = Ok ((λ r, eq_str (row_get r "id") hid) <$> rows df).
Proof.
  intros Hc. unfold id_mask, frame_getattr.
  change (String.eqb "id" "size") with false. cbv iota.
  rewrite (bool_decide_eq_true_2 _ Hc), bind_ok. cbn [attr_eq].
  by rewrite <- list_fmap_compose.
Qed.

Lemma hoarding_list_ok df :
  "id" ∈ columns df → "location" ∈ columns df → "district" ∈ columns df →
  ∃ labels, hoarding_list df = Ok labels.
Proof.
  intros Hi Hl Hd. eexists. unfold hoarding_list.
  apply (traverse_ok _ (λ r, py_str (row_get r "id") +:+ " | " +:+
                             py_str (row_get r "location") +:+ " (" +:+
                             py_str (row_get r "district") +:+ ")")).
  apply Forall_forall. intros r _. unfold hoarding_label, getitem.
  by rewrite !bool_decide_eq_true_2, !bind_ok by done.
Qed.

Lemma getitem_ok df (r : gmap string cell) key :
  key ∈ columns df → getitem df r key = Ok (row_get r key).
Proof. intros Hk. unfold getitem. by rewrite bool_decide_eq_true_2. Qed.

Lemma hoarding_column df key :
  hoarding_columns ⊆ columns df →
  bool_decide (key ∈ hoarding_columns) = true → key ∈ columns df.
Proof. intros Hsub Hk. by apply Hsub, (bool_decide_eq_true _). Qed.

Lemma updated_frame_rows w df j existing :
  hoarding_columns ⊆ columns df →
  updated_frame w df j existing =
  {| columns := columns df;
     rows := alter (λ r, foldl (λ r kv, <[kv.1 := kv.2]> r) r
                           (updates w (CList (existing ++ new_images w))))
                   j (rows df) |}.
Proof.
  intros Hsub. unfold updated_frame. apply apply_updates_present.
  unfold updates. repeat (apply Forall_cons; split;
    [by apply (hoarding_column df _ Hsub)|]).
  apply Forall_nil_2.
Qed.

Lemma updated_frame_images w df j (r : gmap string cell) existing :
  hoarding_columns ⊆ columns df →
  Forall (λ r, ∃ l, row_get r "images" = CList l) (rows df) →
  Forall (λ r, ∃ l, row_get r "images" = CList l)
         (rows (updated_frame w df j existing)).
Proof.
  intros Hsub Hall. rewrite updated_frame_rows by done. cbn [rows].
  apply Forall_forall. intros r' Hin.
  apply list_elem_of_lookup in Hin as [i Hi].
  rewrite list_lookup_alter in Hi. case_decide as Hij.
  - subst i. destruct (rows df !! j) as [r0|]; simpl in Hi; [|done].
    injection Hi as <-. eexists. unfold updates. cbn [foldl fst snd].
    apply row_get_insert_eq.
  - apply (proj1 (Forall_forall _ _) Hall).
    by eapply list_elem_of_lookup_2.
Qed.

Lemma updated_frame_unfold w df j existing :
  updated_frame w df j existing =
  apply_updates j (updates w (CList (existing ++ new_images w))) df.
Proof. reflexivity. Qed.

Lemma edit_reaches_update w df d j (r : gmap string cell) existing :
  edit_ready w df j r existing →
  edit_existing w df d =
  ('(df, d) ← save_data
       (apply_updates j (updates w (CList (existing ++ new_images w))) df) d;
   Ok {| memory := df; stored := d;
         shown := [st_success "Hoarding updated successfully!"] |}).
Proof.
  intros (Hsub & Hall & Hj & Hfirst & [di Hdi] & [p Hp] & Himg & Hsubmit).
  unfold edit_existing.
  assert (He : frame_empty df = false).
  { assert (Hid : "id" ∈ columns df) by by apply (hoarding_column df _ Hsub).
    unfold frame_empty. destruct (columns df) as [|c cs].
    - by apply elem_of_nil in Hid.
    - by destruct (rows df). }
  rewrite He.
  destruct (hoarding_list_ok df) as [labels ->];
    [by apply (hoarding_column df _ Hsub)..|].
  rewrite bind_ok, id_mask_ok by (by apply (hoarding_column df _ Hsub)).
  rewrite bind_ok.
  destruct (select_first
              ((λ r, eq_str (row_get r "id") (hoarding_id_of (selected w)))
                 <$> rows df) (rows df) j r) as [rest ->];
    [by rewrite length_fmap|done|done|].
  rewrite bind_ok.
  rewrite !getitem_ok by (by apply (hoarding_column df _ Hsub)).
  rewrite !bind_ok, Hdi, bind_ok, Hp, bind_ok, Hsubmit, Himg.
  cbn [add_images]. rewrite !bind_ok, Hfirst, bind_ok.
  reflexivity.
Qed.

(** *** Image references through the file *)

Lemma no_delimiter_cons c x :
  forallb (λ c, negb (Ascii.eqb c "|")) (list_ascii_of_string (String c x)) = true →
  Ascii.eqb c "|" = false ∧
  forallb (λ c, negb (Ascii.eqb c "|")) (list_ascii_of_string x) = true.
Proof.
  cbn [list_ascii_of_string forallb]. intros [Hc Hx]%andb_true_iff.
  by apply negb_true_iff in Hc.
Qed.

Lemma split_no_delimiter x :
  forallb (λ c, negb (Ascii.eqb c "|")) (list_ascii_of_string x) = true →
  Py.split "|" x = [x].
Proof.
  induction x as [|c x IH]; [done|]. intros [Hc Hx]%no_delimiter_cons.
  simpl. rewrite Hc. by rewrite IH.
Qed.

Lemma split_no_delimiter_app x s :
  forallb (λ c, negb (Ascii.eqb c "|")) (list_ascii_of_string x) = true →
  Py.split "|" (x +:+ String "|" s) = x :: Py.split "|" s.
Proof.
  induction x as [|c x IH]; [done|]. intros [Hc Hx]%no_delimiter_cons.
  simpl. rewrite Hc. by rewrite IH.
Qed.

Lemma split_join l :
  l ≠ [] → Forall (λ x, storable x = true) l →
  Py.split "|" (Py.join "|" l) = l.
Proof.
  induction l as [|x [|y l] IH]; [done| |]; intros _ Hl.
  - apply Forall_cons in Hl as [[_ Hx]%andb_true_iff _].
    by apply split_no_delimiter.
  - apply Forall_cons in Hl as [[_ Hx]%andb_true_iff Hl]. rewrite join_cons.
    change (x +:+ "|" +:+ Py.join "|" (y :: l))
      with (x +:+ String "|" (Py.join "|" (y :: l))).
    rewrite split_no_delimiter_app by done. by rewrite IH.
Qed.

Lemma join_storable l :
  l ≠ [] → Forall (λ x, storable x = true) l → Py.truthy (Py.join "|" l) = true.
Proof.
  destruct l as [|x [|y l]]; [done| |]; intros _ Hl;
    apply Forall_cons in Hl as [Hx _];
    apply andb_true_iff in Hx as [Hx _]; by destruct x.
Qed.

(** The images that [save_data] joins are the images that [load_data]
    splits again. *)
Lemma images_reload l :
  Forall (λ x, storable x = true) l →
  images_of_field (Scalar (csv_field (SStr (Py.join "|" l)))) = Ok (CList l).
Proof.
  intros Hl. destruct (decide (l = [])) as [->|Hne]; [done|].
  pose proof (join_storable l Hne Hl) as Ht.
  pose proof (split_join l Hne Hl) as Hs.
  destruct (Py.join "|" l) as [|c s]; [done|].
  cbn [csv_field images_of_field]. by rewrite Ht, Hs.
Qed.
(** An edit that is ready stores the updated frame. *)
Lemma edit_existing_ready w df d j (r : gmap string cell) existing :
  edit_ready w df j r existing →
  edit_existing w df d =
    Ok {| memory := saved_frame (updated_frame w df j existing);
          stored := {| DATA_FILE :=
                         to_csv (saved_frame (updated_frame w df j existing));
                       BOOKINGS_FILE := BOOKINGS_FILE d |};
          shown := [st_success "Hoarding updated successfully!"] |}.
Proof.
  intros Hready. rewrite (edit_reaches_update w df d j r existing Hready).
  destruct Hready as (Hsub & Hall & Hj & _).
  rewrite <- updated_frame_unfold. rewrite save_data_lists; [done| |].
  - rewrite updated_frame_rows by done.
    by apply (hoarding_column df _ Hsub).
  - by apply (updated_frame_images w df j r).
Qed.

Lemma rows_saved_frame df :
  rows (saved_frame df) =
  (λ r, <["images" := saved_cell "images" (row_get r "images")]> r) <$> rows df.
Proof. done. Qed.

Lemma columns_saved_frame df : columns (saved_frame df) = columns df.
Proof. done. Qed.

Lemma records_of_to_csv df :
  records_of (to_csv df) = write_row (columns df) <$> rows df.
Proof. done. Qed.

Lemma updated_row_images w (r : gmap string cell) v :
  row_get (foldl (λ r kv, <[kv.1 := kv.2]> r) r (updates w v)) "images" = v.
Proof. unfold updates. cbn [foldl fst snd]. apply row_get_insert_eq. Qed.

Lemma updated_row_id w (r : gmap string cell) v :
  foldl (λ r kv, <[kv.1 := kv.2]> r) r (updates w v) !! "id" = r !! "id".
Proof.
  unfold updates. cbn [foldl fst snd]. by rewrite !lookup_insert_ne.
Qed.

Lemma saved_images_list l :
  saved_cell "images" (CList l) = Scalar (SStr (Py.join "|" l)).
Proof.
  unfold saved_cell. change (String.eqb "images" "images") with true.
  cbv iota. by rewrite field_of_images_list.
Qed.

(** C3: an update leaves in the listing the images it had followed by the
    new ones, in the frame it saves and in the file; the listing that is
    loaded again has these images when no reference is empty or holds the
    delimiter. *)
Theorem update_appends_images w df d j (r : gmap string cell) existing :
  edit_ready w df j r existing →
  ∃ r_u r_s,
    edit_existing w df d =
      Ok {| memory := saved_frame (updated_frame w df j existing);
            stored := {| DATA_FILE :=
                           to_csv (saved_frame (updated_frame w df j existing));
                         BOOKINGS_FILE := BOOKINGS_FILE d |};
            shown := [st_success "Hoarding updated successfully!"] |} ∧
    rows (updated_frame w df j existing) !! j = Some r_u ∧
    row_get r_u "images" = CList (existing ++ new_images w) ∧
    rows (saved_frame (updated_frame w df j existing)) !! j = Some r_s ∧
    row_get r_s "images"
      = Scalar (SStr (Py.join "|" (existing ++ new_images w))) ∧
    (Forall (λ x, storable x = true) (existing ++ new_images w) →
     images_of_field (Scalar (csv_of_cell (row_get r_s "images")))
       = Ok (CList (existing ++ new_images w))).
Proof.
  intros Hready. pose proof (edit_existing_ready w df d j r existing Hready)
    as Hedit.
  destruct Hready as (Hsub & Hall & Hj & _).
  set (f := λ r : gmap string cell, foldl (λ r kv, <[kv.1 := kv.2]> r) r
              (updates w (CList (existing ++ new_images w)))).
  assert (Hu : rows (updated_frame w df j existing) !! j = Some (f r)).
  { rewrite updated_frame_rows by done. cbn [rows].
    by rewrite list_lookup_alter_eq, Hj. }
  assert (Hi : row_get (f r) "images" = CList (existing ++ new_images w))
    by apply updated_row_images.
  eexists (f r), _.
  split; [exact Hedit|]. split; [exact Hu|]. split; [exact Hi|].
  split; [by rewrite rows_saved_frame, list_lookup_fmap, Hu|].
  rewrite row_get_insert_eq, Hi, saved_images_list. split; [done|].
  intros Hst. cbn [csv_of_cell]. by apply images_reload.
Qed.

(** *** Other listings through an update *)

(** What [load_data] returns for a table that holds the optional
    columns. *)
Lemma load_data_plain t other :
  optional_columns ⊆ header t →
  Forall (λ rec, images_text rec = true) (records t) →
  load_data {| DATA_FILE := Table t; BOOKINGS_FILE := other |} =
  Ok {| columns := header t;
        rows := (λ rec, tabulate (header t) (loaded_cell rec)) <$> records t |}.
Proof.
  intros Hsub Himg. rewrite load_data_table by done.
  rewrite load_columns_id by done. do 2 f_equal.
  apply list_fmap_ext. intros i rec _. by apply load_row_tabulate.
Qed.

(** The [images] field that [save_data] writes is text or empty. *)
Lemma written_images_text hd (r : gmap string cell) v :
  "images" ∈ hd →
  images_text (write_row hd (<["images" := saved_cell "images" v]> r)) = true.
Proof.
  intros Hc. unfold images_text, write_row.
  rewrite lookup_tabulate, (bool_decide_eq_true_2 _ Hc), row_get_insert_eq.
  unfold saved_cell. change (String.eqb "images" "images") with true.
  cbv iota.
  destruct v as [[s|[]|n|]|[|a l]];
    cbn [field_of_images get_ok csv_of_cell]; try done;
    try by destruct (Py.join _ _).
  by case_bool_decide.
Qed.

(** A loaded row that is saved and loaded again is the row it was. *)
Lemma reload_row hd rec :
  optional_columns ⊆ hd →
  images_text rec = true →
  tabulate hd
    (loaded_cell
       (write_row hd
          (<["images" := saved_cell "images" (loaded_cell rec "images")]>
             (tabulate hd (loaded_cell rec)))))
  = tabulate hd (loaded_cell rec).
Proof.
  intros Hsub Hr. apply tabulate_ext. intros k Hk.
  unfold loaded_cell at 1, read_field at 1, write_row.
  rewrite lookup_tabulate, (bool_decide_eq_true_2 _ Hk). cbn [default].
  replace (row_get (<["images" := saved_cell "images" (loaded_cell rec "images")]>
                      (tabulate hd (loaded_cell rec))) k)
    with (saved_cell k (loaded_cell rec k)).
  - apply cell_of_field_stable. intros ->. by apply images_text_field.
  - destruct (decide (k = "images")) as [->|Hne].
    + by rewrite row_get_insert_eq.
    + rewrite row_get_insert_ne, row_get_tabulate by done.
      unfold saved_cell. by rewrite (proj2 (String.eqb_neq _ _) Hne).
Qed.

(** The identifier of a row that is written and loaded is the identifier
    that was loaded before. *)
Lemma reload_id hd rec (x : gmap string cell) :
  "id" ∈ hd →
  x !! "id" = Some (loaded_cell rec "id") →
  tabulate hd (loaded_cell (write_row hd x)) !! "id"
    = Some (loaded_cell rec "id").
Proof.
  intros Hid Hx. rewrite lookup_tabulate, (bool_decide_eq_true_2 _ Hid).
  f_equal. unfold loaded_cell, read_field, write_row.
  rewrite lookup_tabulate, (bool_decide_eq_true_2 _ Hid). cbn [default].
  unfold row_get. rewrite Hx. cbn [default].
  unfold loaded_cell, cell_of_field. cbn [String.eqb Ascii.eqb Bool.eqb].
  unfold id. cbn [csv_of_cell]. unfold read_field.
  by rewrite !csv_field_idemp.
Qed.


(** *** The filters of "View Hoardings" *)

Lemma select_filter {A} (keep : A → bool) (l : list A) :
  select (keep <$> l) l = filter (λ a, keep a = true) l.
Proof.
  induction l as [|a l IH]; [done|]. cbn [fmap list_fmap select].
  rewrite filter_cons. destruct (keep a) eqn:Ha.
  - rewrite decide_True by done. by rewrite <- IH.
  - rewrite decide_False by done. by rewrite <- IH.
Qed.

Lemma column_mask df name (keep : cell → bool) :
  name ≠ "size" → name ∈ columns df →
  (frame_getattr df name ≫= λ a, attr_eq a keep) =
  Ok ((λ r, keep (row_get r name)) <$> rows df).
Proof.
  intros Hn Hc. unfold frame_getattr.
  rewrite (proj2 (String.eqb_neq _ _) Hn), (bool_decide_eq_true_2 _ Hc).
  rewrite bind_ok. cbn [attr_eq]. by rewrite <- list_fmap_compose.
Qed.

(** One filter of the page on a column other than [size]: when it is
    active the rows that pass are kept, in their order. *)
Lemma filter_stage df name (active : bool) (keep : cell → bool) :
  name ≠ "size" → name ∈ columns df →
  (if active then
     frame_getattr df name ≫= λ a,
     attr_eq a keep ≫= λ mask, Ok (frame_select mask df)
   else Ok df) =
  Ok {| columns := columns df;
        rows := filter (λ r, (negb active || keep (row_get r name)) = true)
                       (rows df) |}.
Proof.
  intros Hn Hc. destruct active; cbn [negb orb].
  - unfold frame_getattr.
    rewrite (proj2 (String.eqb_neq _ _) Hn), (bool_decide_eq_true_2 _ Hc).
    rewrite bind_ok. cbn [attr_eq]. rewrite bind_ok. unfold frame_select.
    by rewrite <- list_fmap_compose, <- select_filter.
  - destruct df as [cols rs]; cbn [columns rows]. do 2 f_equal.
    induction rs as [|r rs IH]; [done|].
    by rewrite filter_cons_True, <- IH.
Qed.

(** X1: without a size filter the page shows the listings that pass the
    district filter and the availability filter, in their order; "All"
    lets every listing pass. *)
Lemma apply_filters_no_size df district_filter status_filter :
  "district" ∈ columns df → "is_available" ∈ columns df →
  apply_filters df district_filter status_filter "" =
  Ok {| columns := columns df;
        rows := filter
          (λ r, ((String.eqb district_filter "All"
                  || eq_str (row_get r "district") district_filter) &&
                 (String.eqb status_filter "All"
                  || eq_bool (row_get r "is_available")
                       (String.eqb status_filter "Available"))) = true)
          (rows df) |}.
Proof.
  intros Hd Ha. unfold apply_filters. cbn [Py.truthy].
  rewrite (filter_stage df "district") by done. rewrite bind_ok.
  rewrite (filter_stage _ "is_available") by done. rewrite !bind_ok.
  cbn [columns rows]. rewrite list_filter_filter. do 2 f_equal.
  apply list_filter_iff. intros r. rewrite !negb_involutive.
  rewrite andb_true_iff. tauto.
Qed.

(** With all three filters off the page shows every listing. *)
Lemma apply_filters_off df :
  apply_filters df "All" "All" "" = Ok df.
Proof. by destruct df. Qed.

(** X2: a size filter makes the page raise, whatever the frame and the
    other two filters hold: [filtered_df.size] is the number of elements
    of the frame, which has no [str]. *)
Lemma apply_filters_size_raises df district_filter status_filter size_filter :
  size_filter ≠ "" →
  apply_filters df district_filter status_filter size_filter
    = Raise AttributeError.
Proof.
  intros Hs%truthy_nonempty. unfold apply_filters. rewrite Hs.
  assert (Hstage : ∀ (active : bool) name keep (dfx : frame) e,
    name ≠ "size" →
    (if active then
       frame_getattr dfx name ≫= λ a,
       attr_eq a keep ≫= λ mask, Ok (frame_select mask dfx)
     else Ok dfx) = Raise e →
    e = AttributeError).
  { intros [] name keep dfx e Hn; [|done]. unfold frame_getattr.
    rewrite (proj2 (String.eqb_neq _ _) Hn). case_bool_decide; [done|].
    by intros [= <-]. }
  destruct (if negb (String.eqb district_filter "All") then _ else _)
    as [df1|e] eqn:E1.
  2:{ by apply (Hstage _ "district") in E1 as ->. }
  rewrite bind_ok.
  destruct (if negb (String.eqb status_filter "All") then _ else _)
    as [df2|e] eqn:E2.
  2:{ by apply (Hstage _ "is_available") in E2 as ->. }
  rewrite bind_ok.
  unfold frame_getattr. change (String.eqb "size" "size") with true.
  cbv iota. by rewrite bind_ok.
Qed.

(** *** The cells of a loaded frame *)

Lemma pd_to_numeric_not_text x v :
  pd_to_numeric x = Ok v →
  ∃ y : scalar, v = Scalar y ∧ ∀ s, y ≠ SStr s.
Proof.
  destruct x as [[s|b|n|]|l]; simpl; try done.
  - destruct (parse_number s); intros [= <-]; by eexists.
  - intros [= <-]; by eexists.
  - intros [= <-]; by eexists.
  - intros [= <-]; by eexists.
Qed.

(** The property that a column conversion gives to the cells of its column
    and keeps for every other column. *)
Lemma series_apply_establishes col f (Q : cell → Prop) df df' :
  series_apply col f df = Ok df' →
  (∀ x v, f x = Ok v → Q v) →
  Forall (λ r, Q (row_get r col)) (rows df').
Proof.
  intros [_ Hrows]%series_apply_inv HQ.
  induction Hrows as [|r r' rs rs' [v [Hv ->]] _ IH]; constructor; [|done].
  rewrite row_get_insert_eq. by eapply HQ.
Qed.

Lemma series_apply_keeps col k f (Q : cell → Prop) df df' :
  col ≠ k →
  series_apply col f df = Ok df' →
  Forall (λ r, Q (row_get r k)) (rows df) →
  Forall (λ r, Q (row_get r k)) (rows df').
Proof.
  intros Hne [_ Hrows]%series_apply_inv Hall.
  induction Hrows as [|r r' rs rs' [v [_ ->]] _ IH]; [constructor|].
  apply Forall_cons in Hall as [Hr Hall]. constructor; [|by apply IH].
  by rewrite row_get_insert_ne.
Qed.

Lemma guarded_apply_columns col f (dfa dfb : frame) :
  (if bool_decide (col ∈ columns dfa)
   then series_apply col f dfa else Ok dfa) = Ok dfb →
  columns dfb = columns dfa.
Proof.
  destruct (bool_decide (col ∈ columns dfa)).
  - by intros [-> _]%series_apply_inv.
  - by intros [= <-].
Qed.

(** X3: every frame that [load_data] returns has the four optional
    columns; in each row the images are a list, the price (when there is
    such a column) is not text and the availability (when there is such a
    column) is a bool. *)
Theorem loaded_frame_typed d df :
  load_data d = Ok df →
  optional_columns ⊆ columns df ∧
  Forall (λ r, ∃ l, row_get r "images" = CList l) (rows df) ∧
  ("price" ∈ columns df →
   Forall (λ r, ∃ y : scalar, row_get r "price" = Scalar y ∧ ∀ s, y ≠ SStr s)
          (rows df)) ∧
  ("is_available" ∈ columns df →
   Forall (λ r, ∃ b, row_get r "is_available" = Scalar (SBool b)) (rows df)).
Proof.
  intros Hload. split; [|split; [by apply (load_data_images d)|]];
    revert Hload; unfold load_data;
    (destruct (read_or_empty (DATA_FILE d) hoarding_columns) as [df0|e];
       [|done]);
    rewrite bind_ok, ensure_columns;
    set (df1 := {| columns := load_columns (columns df0);
                   rows := with_defaults (columns df0) <$> rows df0 |});
    (destruct (if bool_decide ("images" ∈ columns df1) then _ else _)
       as [df2|e] eqn:H2; [|done]); rewrite bind_ok;
    (destruct (if bool_decide ("price" ∈ columns df2) then _ else _)
       as [df3|e] eqn:H3; [|done]); rewrite bind_ok;
    (destruct (if bool_decide ("is_available" ∈ columns df3) then _ else _)
       as [df4|e] eqn:H4; [|done]); rewrite bind_ok; intros [= <-];
    pose proof (guarded_apply_columns _ _ _ _ H4) as Hc4;
    pose proof (guarded_apply_columns _ _ _ _ H3) as Hc3;
    pose proof (guarded_apply_columns _ _ _ _ H2) as Hc2.
  - rewrite Hc4, Hc3, Hc2.
    intros k Hk. apply elem_of_load_columns. by right.
  - split.
    + rewrite Hc4, Hc3. intros Hp.
      rewrite (bool_decide_eq_true_2 _ Hp) in H3.
      assert (H3' : Forall (λ r, ∃ y : scalar, row_get r "price" = Scalar y ∧
                                 ∀ s, y ≠ SStr s) (rows df3)).
      { eapply (series_apply_establishes "price" pd_to_numeric
                  (λ v, ∃ y : scalar, v = Scalar y ∧ ∀ s, y ≠ SStr s));
          [exact H3|]. intros x v. apply pd_to_numeric_not_text. }
      destruct (bool_decide ("is_available" ∈ columns df3));
        [|by injection H4 as <-].
      by eapply (series_apply_keeps "is_available" "price" _
                   (λ v, ∃ y : scalar, v = Scalar y ∧ ∀ s, y ≠ SStr s) df3 df4);
        [|exact H4|].
    + intros Ha. rewrite Hc4 in Ha.
      rewrite (bool_decide_eq_true_2 _ Ha) in H4.
      eapply (series_apply_establishes "is_available" _
                (λ v, ∃ b, v = Scalar (SBool b))); [exact H4|].
      intros x v [= <-]. by eexists.
Qed.

(** *** Missing columns and fields that are not text *)

Lemma load_row_optional cols rec k :
  k ∈ optional_columns → k ∉ cols →
  row_get (load_row cols rec) k =
  if String.eqb k "images" then CList [] else Scalar (SStr "").
Proof.
  intros Hk Hn.
  assert (Hd : with_defaults cols (read_record cols rec) !! k
               = Some (Scalar (SStr ""))).
  { rewrite lookup_with_defaults. by rewrite bool_decide_eq_true_2. }
  assert (Hp : k ≠ "price") by (intros ->; by apply price_not_optional).
  assert (Ha : k ≠ "is_available")
    by (intros ->; by apply is_available_not_optional).
  unfold load_row.
  set (r0 := with_defaults cols (read_record cols rec)) in *.
  assert (Hstep : ∀ (b : bool) key v (r : gmap string cell),
            key ≠ k → row_get (if b then <[key := v]> r else r) k = row_get r k).
  { intros [] key v r Hne; [by apply row_get_insert_ne|done]. }
  rewrite !Hstep by done.
  destruct (String.eqb_spec k "images") as [->|Hi].
  - rewrite row_get_insert_eq. unfold row_get. by rewrite Hd.
  - rewrite row_get_insert_ne by done. unfold row_get. by rewrite Hd.
Qed.

(** X4: a table that lacks one of the optional columns is loaded with
    that column: every row has no image, or the empty text in the
    landmark, coordinates or address. *)
Theorem missing_column_defaulted t other k :
  Forall (λ rec, images_text rec = true) (records t) →
  k ∈ optional_columns → k ∉ header t →
  ∃ df,
    load_data {| DATA_FILE := Table t; BOOKINGS_FILE := other |} = Ok df ∧
    k ∈ columns df ∧
    length (rows df) = length (records t) ∧
    Forall (λ r, row_get r k =
                 if String.eqb k "images" then CList [] else Scalar (SStr ""))
           (rows df).
Proof.
  intros Himg Hk Hn. eexists. split; [by apply load_data_table|].
  cbn [columns rows]. split; [apply elem_of_load_columns; by right|].
  split; [by rewrite length_fmap|].
  apply Forall_fmap, Forall_forall. intros rec _. by apply load_row_optional.
Qed.

Lemma traverse_raise {A B} (f : A → result B) l e :
  Forall (λ a, (∃ b, f a = Ok b) ∨ f a = Raise e) l →
  Exists (λ a, f a = Raise e) l →
  traverse f l = Raise e.
Proof.
  induction l as [|a l IH]; intros Hall Hex; [by apply Exists_nil in Hex|].
  apply Forall_cons in Hall as [Ha Hall]. cbn [traverse].
  destruct Ha as [[b Hb]|Hr]; [|by rewrite Hr].
  rewrite Hb, bind_ok. apply Exists_cons in Hex as [Hex|Hex]; [congruence|].
  by rewrite (IH Hall Hex).
Qed.

Lemma images_of_scalar (x : scalar) :
  (∃ v, images_of_field (Scalar x) = Ok v) ∨
  images_of_field (Scalar x) = Raise AttributeError.
Proof.
  destruct x as [s|b|n|]; simpl; [|by right|by right|left; by eexists].
  left. destruct (Py.truthy s); by eexists.
Qed.

Lemma series_apply_raise col f df e :
  col ∈ columns df →
  Forall (λ r, (∃ v, f (row_get r col) = Ok v) ∨ f (row_get r col) = Raise e)
         (rows df) →
  Exists (λ r, f (row_get r col) = Raise e) (rows df) →
  series_apply col f df = Raise e.
Proof.
  intros Hc Hall Hex. unfold series_apply.
  rewrite (bool_decide_eq_true_2 _ Hc).
  rewrite (traverse_raise _ _ e); [done| |].
  - eapply Forall_impl; [exact Hall|]. intros r [[v ->]| ->]; [left|by right].
    rewrite bind_ok. by eexists.
  - eapply Exists_impl; [exact Hex|]. by intros r ->.
Qed.

(** X5: when the images field of some record is a number or a bool,
    [load_data] raises AttributeError (such a value has no [split]). *)
Theorem images_not_text_raises t other rec :
  "images" ∈ header t →
  rec ∈ records t →
  images_text rec = false →
  load_data {| DATA_FILE := Table t; BOOKINGS_FILE := other |}
    = Raise AttributeError.
Proof.
  intros Hc Hrec Himg. unfold load_data.
  cbn [DATA_FILE read_or_empty pd_read_csv].
  rewrite bind_ok, ensure_columns. cbn [columns rows].
  rewrite bool_decide_eq_true_2
    by (apply elem_of_load_columns; by left).
  assert (Hget : ∀ rec0,
    row_get (with_defaults (header t) (read_record (header t) rec0)) "images"
    = Scalar (csv_field (default SNaN (rec0 !! "images")))).
  { intros rec0. unfold row_get. rewrite lookup_with_defaults.
    rewrite bool_decide_eq_false_2 by (by intros [_ Hn]).
    unfold read_record. by rewrite lookup_tabulate, bool_decide_eq_true_2. }
  rewrite (series_apply_raise _ _ _ AttributeError); [done| | |].
  - apply elem_of_load_columns; by left.
  - cbn [rows]. rewrite <- list_fmap_compose. apply Forall_fmap, Forall_forall.
    intros rec0 _. unfold compose. rewrite Hget.
    destruct (images_of_scalar (csv_field (default SNaN (rec0 !! "images"))))
      as [[v ->]| ->]; [left; by eexists|by right].
  - cbn [rows]. rewrite <- list_fmap_compose. apply Exists_fmap, Exists_exists.
    exists rec. split; [done|]. unfold compose. rewrite Hget.
    unfold images_text in Himg.
    by destruct (rec !! "images") as [[s|b|n|]|].
Qed.

(** *** The two conversions of the images column *)

(** X6: the conversions of the images column undo each other: the text of
    a field is written back as it was read, and a list of references is
    read back as it was written when no reference is empty or holds the
    delimiter. *)
Theorem images_conversions_inverse :
  (∀ s, s ≠ "" →
     ∃ l, images_of_field (Scalar (SStr s)) = Ok (CList l) ∧
          field_of_images (CList l) = Ok (Scalar (SStr s))) ∧
  (∀ l, Forall (λ x, storable x = true) l →
     ∃ x : scalar,
       field_of_images (CList l) = Ok (Scalar x) ∧
       images_of_field (Scalar (csv_field x)) = Ok (CList l)).
Proof.
  split.
  - intros s Hs. exists (Py.split "|" s). split.
    + cbn [images_of_field]. by rewrite (proj2 (truthy_nonempty s) Hs).
    + rewrite field_of_images_list. by rewrite (join_split "|" s).
  - intros l Hl. eexists. split; [apply field_of_images_list|].
    by apply images_reload.
Qed.

(** X7: a reference that holds the delimiter is not kept: saved alone, it
    is loaded as the two references on both sides of the delimiter. *)
Theorem delimiter_splits_reference x y :
  storable x = true → storable y = true →
  field_of_images (CList [x +:+ "|" +:+ y])
    = Ok (Scalar (SStr (x +:+ "|" +:+ y))) ∧
  images_of_field (Scalar (csv_field (SStr (x +:+ "|" +:+ y))))
    = Ok (CList [x; y]).
Proof.
  intros Hx Hy. split; [done|].
  change (x +:+ "|" +:+ y) with (Py.join "|" [x; y]).
  apply images_reload. by repeat constructor.
Qed.

(** *** Uploads *)

Lemma length_omap_le {A B} (f : A → option B) (l : list A) :
  (length (omap f l) ≤ length l)%nat.
Proof.
  induction l as [|a l IH]; [done|]. cbn [omap list_omap].
  destruct (f a); simpl; lia.
Qed.

(** X8: an upload keeps at most [MAX_IMAGES] paths: those of the files
    among the first five that could be saved; a sixth file is ignored
    even when one of the first five failed. *)
Theorem upload_keeps_first_five (uploaded_files extra : list (option string)) :
  (length (handle_image_upload uploaded_files) ≤ MAX_IMAGES)%nat ∧
  (∀ p, p ∈ handle_image_upload uploaded_files ↔
        Some p ∈ take MAX_IMAGES uploaded_files) ∧
  ((MAX_IMAGES ≤ length uploaded_files)%nat →
   handle_image_upload (uploaded_files ++ extra)
     = handle_image_upload uploaded_files).
Proof.
  unfold handle_image_upload. split; [|split].
  - etrans; [apply length_omap_le|]. rewrite length_take. lia.
  - intros p. rewrite list_elem_of_omap. split.
    + intros [x [Hx Hid]]. unfold id in Hid. by subst x.
    + intros Hp. by exists (Some p).
  - intros Hlen. by rewrite take_app_le.
Qed.

(** *** Dates *)

Lemma date_lt_irrefl a : date_lt a a = false.
Proof. unfold date_lt. rewrite !N.eqb_refl. apply N.ltb_irrefl. Qed.

(** X9: a booking that ends on the day it starts is accepted. *)
Theorem same_day_booking_accepted uuid4 hoarding_id w d :
  confirm_booking w = true →
  BOOKINGS_FILE d ≠ Malformed →
  user_name w ≠ "" → phone w ≠ "" → email w ≠ "" →
  end_date w = start_date w →
  ∃ bdf,
    load_bookings d = Ok bdf ∧
    booking_form uuid4 hoarding_id w d =
      Ok (save_bookings
            (pd_concat bdf (frame_of_dict (new_booking uuid4 hoarding_id w))) d,
          [st_success "Booking created successfully!"; st_balloons]).
Proof.
  intros Hc Hm Hu Hp He Hd.
  destruct (load_bookings_readable d Hm) as [bdf Hb].
  exists bdf. split; [done|].
  unfold booking_form. rewrite Hb, bind_ok, Hc.
  apply truthy_nonempty in Hu, Hp, He. rewrite Hu, Hp, He, Hd.
  by rewrite date_lt_irrefl.
Qed.

(** *** Which file an operation writes *)

Lemma bind_inv {A B} (m : result A) (k : A → result B) b :
  (m ≫= k) = Ok b → ∃ a, m = Ok a ∧ k a = Ok b.
Proof. destruct m as [a|e]; [by exists a|done]. Qed.

Lemma save_data_bookings df d df' d' :
  save_data df d = Ok (df', d') → BOOKINGS_FILE d' = BOOKINGS_FILE d.
Proof.
  unfold save_data. intros (dfs & _ & Hd)%bind_inv. by injection Hd as _ <-.
Qed.

Lemma add_new_bookings uuid4 w df d o :
  add_new uuid4 w df d = Ok o → BOOKINGS_FILE (stored o) = BOOKINGS_FILE d.
Proof.
  unfold add_new. destruct (submit_hoarding w); [|by intros [= <-]].
  destruct (negb _); [by intros [= <-]|].
  intros ([dfs d'] & Hs & Ho)%bind_inv. injection Ho as <-.
  by apply save_data_bookings in Hs.
Qed.

Lemma edit_existing_bookings w df d o :
  edit_existing w df d = Ok o → BOOKINGS_FILE (stored o) = BOOKINGS_FILE d.
Proof.
  unfold edit_existing. destruct (frame_empty df); [by intros [= <-]|].
  repeat (let H := fresh in intros (? & _ & H)%bind_inv; revert H).
  destruct (update_hoarding w); [|by intros [= <-]].
  do 3 (let H := fresh in intros (? & _ & H)%bind_inv; revert H).
  intros ([dfs d'] & Hs & Ho)%bind_inv. injection Ho as <-.
  by apply save_data_bookings in Hs.
Qed.

Lemma booking_form_data uuid4 hoarding_id w d d' ns :
  booking_form uuid4 hoarding_id w d = Ok (d', ns) →
  DATA_FILE d' = DATA_FILE d.
Proof.
  unfold booking_form. intros (bdf & _ & Hb)%bind_inv. revert Hb.
  destruct (confirm_booking w); [|by intros [= <- _]].
  destruct (_ || _); [by intros [= <- _]|].
  destruct (date_lt _ _); by intros [= <- _].
Qed.

(** X10: a run of [main] that ends normally leaves both files as they
    were when the operation is "View Hoardings", leaves the bookings as
    they were when it is "Add New" or "Edit Existing", and leaves the
    listings as they were when it is "Bookings". *)
Theorem main_writes_its_file ss op d p :
  main ss op d = Ok p →
  match op with
  | ViewHoardings _ _ _ _ => files p = d
  | AddNew _ _ | EditExisting _ =>
      BOOKINGS_FILE (files p) = BOOKINGS_FILE d
  | Bookings _ _ => DATA_FILE (files p) = DATA_FILE d
  end.
Proof.
  unfold main. intros (_ & _ & Hm)%bind_inv. revert Hm.
  intros (df & _ & Hm)%bind_inv. revert Hm.
  intros (bdf & _ & Hm)%bind_inv. revert Hm.
  destruct op as [a b c bn|u w|w|u w].
  - destruct (frame_empty df); [by intros [= <-]|].
    intros (fdf & _ & Hm)%bind_inv. revert Hm.
    intros (cs & _ & Hm)%bind_inv. by injection Hm as <-.
  - intros (o & Ho & Hm)%bind_inv. injection Hm as <-.
    by apply add_new_bookings in Ho.
  - intros (o & Ho & Hm)%bind_inv. injection Hm as <-.
    by apply edit_existing_bookings in Ho.
  - intros ([d' ns] & Hb & Hm)%bind_inv. revert Hm.
    intros (bdf' & _ & Hm)%bind_inv. injection Hm as <-. cbn [files].
    destruct (selected_hoarding_for_booking _) as [h|].
    + apply bind_inv in Hb as ([d'' ns'] & Hb & Hd). injection Hd as <- _.
      by apply booking_form_data in Hb.
    + by injection Hb as <- _.
Qed.

(** *** A store without listings *)

Lemma load_fresh_data f other :
  f = Absent ∨ f = Blank →
  load_data {| DATA_FILE := f; BOOKINGS_FILE := other |}
    = Ok (empty_frame hoarding_columns).
Proof.
  intros Hf. unfold load_data; simpl. by rewrite (read_or_empty_fresh _ _ Hf).
Qed.


(** X11: when the file of the listings is absent, empty or a table
    without records (and the bookings can be read), "View Hoardings" shows
    the warning and no card and writes nothing, whatever the three filters
    hold: the size filter is not evaluated. *)
Theorem view_without_listings ss district_filter status_filter size_filter
    book_now d :
  DATA_FILE d = Absent ∨ DATA_FILE d = Blank ∨
    (∃ cols, DATA_FILE d = Table {| header := cols; records := [] |}) →
  BOOKINGS_FILE d ≠ Malformed →
  (∀ o, default_operation ss = Some o → o ∈ operations) →
  main ss (ViewHoardings district_filter status_filter size_filter book_now) d =
    Ok {| session := {| default_operation := None;
                        selected_hoarding_for_booking :=
                          selected_hoarding_for_booking ss |};
          files := d; cards := [];
          notices := [st_warning "No hoardings available in database"] |}.
Proof.
  intros Hd Hb Hop. unfold main.
  assert (Hs : match default_operation ss with
               | Some o => if bool_decide (o ∈ operations)
                           then Ok () else Raise ValueError
               | None => Ok ()
               end = Ok ()).
  { destruct (default_operation ss) as [o|]; [|done].
    by rewrite bool_decide_eq_true_2 by by apply Hop. }
  rewrite Hs, bind_ok.
  destruct (load_bookings_readable d Hb) as [bdf Hbdf].
  assert (Hl : ∃ cols, load_data d = Ok {| columns := cols; rows := [] |}).
  { destruct d as [f other]. cbn [DATA_FILE] in Hd.
    destruct Hd as [Hf|[Hf|[cols Hf]]].
    - exists hoarding_columns.
      apply (load_fresh_data f other (or_introl Hf)).
    - exists hoarding_columns.
      apply (load_fresh_data f other (or_intror Hf)).
    - exists (load_columns cols). rewrite Hf.
      by rewrite load_data_table by apply Forall_nil_2. }
  destruct Hl as [cols Hl]. rewrite Hl, bind_ok, Hbdf, bind_ok.
  unfold frame_empty. cbn [columns rows]. by destruct cols.
Qed.

(** *** The option of the select box and the identifier it names *)

Lemma append_snoc s c t :
  s +:+ String c t = (s +:+ String c EmptyString) +:+ t.
Proof.
  induction s as [|a s IH]; [done|].
  change (String a (s +:+ String c t)
          = String a ((s +:+ String c EmptyString) +:+ t)).
  by rewrite IH.
Qed.

Lemma no_delimiter_snoc s c :
  forallb (λ c, negb (Ascii.eqb c "|")) (list_ascii_of_string s) = true →
  Ascii.eqb c "|" = false →
  forallb (λ c, negb (Ascii.eqb c "|"))
          (list_ascii_of_string (s +:+ String c EmptyString)) = true.
Proof.
  intros Hs Hc. induction s as [|a s IH]; simpl; [by rewrite Hc|].
  apply no_delimiter_cons in Hs as [Ha Hs]. by rewrite Ha, IH.
Qed.

Lemma rstrip_snoc_space s : Py.rstrip (s +:+ " ") = Py.rstrip s.
Proof. induction s as [|a s IH]; [done|]. simpl. by rewrite IH. Qed.

Lemma length_lstrip s : (String.length (Py.lstrip s) ≤ String.length s)%nat.
Proof.
  induction s as [|a s IH]; [done|]. simpl.
  destruct (Py.is_space a); simpl; lia.
Qed.

Lemma length_rstrip s : (String.length (Py.rstrip s) ≤ String.length s)%nat.
Proof.
  induction s as [|a s IH]; [done|]. simpl.
  destruct (Py.rstrip s); [destruct (Py.is_space a)|]; simpl in *; lia.
Qed.

(** A string that [strip] leaves as it is does not start with a space. *)
Lemma strip_fixed_head a s :
  Py.strip (String a s) = String a s → Py.is_space a = false.
Proof.
  unfold Py.strip. simpl. destruct (Py.is_space a); [|done]. intros Heq.
  pose proof (length_rstrip (Py.lstrip s)) as H1.
  pose proof (length_lstrip s) as H2.
  rewrite Heq in H1. simpl in H1. lia.
Qed.

Lemma strip_snoc_space s : Py.strip s = s → Py.strip (s +:+ " ") = s.
Proof.
  intros Hs. destruct s as [|a s]; [done|].
  pose proof (strip_fixed_head a s Hs) as Ha.
  unfold Py.strip in *. simpl in *. rewrite Ha in *.
  change (String a (s +:+ " ")) with (String a s +:+ " ").
  by rewrite rstrip_snoc_space.
Qed.

Lemma label_split s t :
  forallb (λ c, negb (Ascii.eqb c "|")) (list_ascii_of_string s) = true →
  Py.split "|" (s +:+ " | " +:+ t)
    = (s +:+ " ") :: Py.split "|" (" " +:+ t).
Proof.
  intros Hs.
  change (s +:+ " | " +:+ t) with (s +:+ String " " (String "|" (" " +:+ t))).
  rewrite (append_snoc s " " (String "|" (" " +:+ t))).
  apply split_no_delimiter_app. by apply no_delimiter_snoc.
Qed.


(** The pieces that [split] returns do not hold the separator. *)
Lemma split_pieces s :
  Forall (λ x, forallb (λ c, negb (Ascii.eqb c "|"))
                       (list_ascii_of_string x) = true)
         (Py.split "|" s).
Proof.
  induction s as [|a s IH].
  { apply Forall_cons. split; [reflexivity|apply Forall_nil_2]. }
  cbn [Py.split]. destruct (Ascii.eqb a "|") eqn:Ha.
  { apply Forall_cons. split; [reflexivity|exact IH]. }
  destruct (Py.split "|" s) as [|h t].
  { apply Forall_cons. split; [|apply Forall_nil_2].
    cbn [list_ascii_of_string forallb]. rewrite Ha. reflexivity. }
  apply Forall_cons in IH as [Hh Ht]. apply Forall_cons. split; [|exact Ht].
  cbn [list_ascii_of_string forallb]. rewrite Ha, Hh. reflexivity.
Qed.

Lemma lstrip_no_delimiter s :
  forallb (λ c, negb (Ascii.eqb c "|")) (list_ascii_of_string s) = true →
  forallb (λ c, negb (Ascii.eqb c "|")) (list_ascii_of_string (Py.lstrip s)) = true.
Proof.
  induction s as [|a s IH]; [done|]. intros Hs. simpl.
  destruct (Py.is_space a); [|done].
  apply no_delimiter_cons in Hs as [_ Hs]. by apply IH.
Qed.

Lemma rstrip_no_delimiter s :
  forallb (λ c, negb (Ascii.eqb c "|")) (list_ascii_of_string s) = true →
  forallb (λ c, negb (Ascii.eqb c "|")) (list_ascii_of_string (Py.rstrip s)) = true.
Proof.
  induction s as [|a s IH]; [done|]. intros [Ha Hs]%no_delimiter_cons. simpl.
  specialize (IH Hs). destruct (Py.rstrip s) as [|b t].
  - destruct (Py.is_space a); [done|]. simpl. by rewrite Ha.
  - simpl in *. by rewrite Ha, IH.
Qed.

Lemma hoarding_id_of_no_delimiter selected :
  forallb (λ c, negb (Ascii.eqb c "|"))
          (list_ascii_of_string (hoarding_id_of selected)) = true.
Proof.
  unfold hoarding_id_of, Py.strip.
  apply rstrip_no_delimiter, lstrip_no_delimiter.
  pose proof (split_pieces selected) as Hp.
  destruct (Py.split "|" selected) as [|h t]; [done|].
  by apply Forall_cons in Hp as [Hh _].
Qed.

Lemma rstrip_idemp s : Py.rstrip (Py.rstrip s) = Py.rstrip s.
Proof.
  induction s as [|a s IH]; [done|]. simpl.
  destruct (Py.rstrip s) as [|b t] eqn:Hr.
  - destruct (Py.is_space a) eqn:Ha; [done|]. simpl. by rewrite Ha.
  - change (Py.rstrip (String a (String b t)))
      with (match Py.rstrip (String b t) with
            | EmptyString => if Py.is_space a then EmptyString
                             else String a EmptyString
            | t' => String a t'
            end).
    by rewrite IH.
Qed.

(** [rstrip] keeps the first character of what it does not erase. *)
Lemma rstrip_head a s :
  Py.rstrip (String a s) = EmptyString ∨
  ∃ t, Py.rstrip (String a s) = String a t.
Proof.
  simpl. destruct (Py.rstrip s); [destruct (Py.is_space a)|]; eauto.
Qed.

Lemma lstrip_head s :
  match Py.lstrip s with
  | EmptyString => True
  | String a _ => Py.is_space a = false
  end.
Proof.
  induction s as [|a s IH]; [done|]. simpl.
  by destruct (Py.is_space a) eqn:Ha; [|rewrite Ha].
Qed.

Lemma strip_idemp s : Py.strip (Py.strip s) = Py.strip s.
Proof.
  unfold Py.strip. pose proof (lstrip_head s) as Hh.
  destruct (Py.lstrip s) as [|a t]; [done|].
  destruct (rstrip_head a t) as [Hr|[t' Hr]].
  - by rewrite Hr.
  - assert (Hl : Py.lstrip (Py.rstrip (String a t)) = Py.rstrip (String a t)).
    { rewrite Hr. simpl. by rewrite Hh. }
    by rewrite Hl, rstrip_idemp.
Qed.

Lemma select_none {A} (mask : list bool) (l : list A) :
  Forall (λ b, b = false) mask → select mask l = [].
Proof.
  revert l. induction mask as [|b mask IH]; intros [|x l] Hm; try done.
  apply Forall_cons in Hm as [-> Hm]. simpl. by apply IH.
Qed.

(** X13: "Edit Existing" raises [IndexError] when no listing has an
    identifier that an option can name: whatever is selected, the mask
    [df.id == hoarding_id] is false on an identifier that is not text,
    that holds the delimiter or that has surrounding white space, and
    [.iloc[0]] of the empty selection raises. *)
Theorem edit_needs_plain_ids w df d :
  frame_empty df = false →
  "id" ∈ columns df → "location" ∈ columns df → "district" ∈ columns df →
  Forall (λ r, ∀ s, row_get r "id" = Scalar (SStr s) →
                forallb (λ c, negb (Ascii.eqb c "|"))
                        (list_ascii_of_string s) = false ∨
                Py.strip s ≠ s) (rows df) →
  edit_existing w df d = Raise IndexError.
Proof.
  intros He Hi Hl Hd Hids. unfold edit_existing. rewrite He.
  destruct (hoarding_list_ok df Hi Hl Hd) as [labels ->].
  rewrite bind_ok, id_mask_ok, bind_ok by done.
  rewrite select_none; [done|].
  apply Forall_fmap. eapply Forall_impl; [exact Hids|].
  intros r Hr. cbv beta in Hr.
  change (eq_str (row_get r "id") (hoarding_id_of (selected w)) = false).
  destruct (row_get r "id") as [[s| | |]|]; try done.
  cbn [eq_str]. apply (proj2 (String.eqb_neq _ _)). intros ->.
  destruct (Hr _ eq_refl) as [Hdel|Hstrip].
  - by rewrite hoarding_id_of_no_delimiter in Hdel.
  - apply Hstrip. unfold hoarding_id_of. apply strip_idemp.
Qed.

(** *** Bookings read back *)

Lemma csv_field_of_cell v : csv_field (csv_of_cell v) = csv_of_cell v.
Proof. destruct v; apply csv_field_idemp. Qed.

(** A row that is written and read holds, in each column, the field
    written for it. *)
Lemma row_get_read_write cols (r : gmap string cell) k :
  k ∈ cols →
  row_get (read_record cols (write_row cols r)) k
    = Scalar (csv_of_cell (row_get r k)).
Proof.
  intros Hk. unfold read_record, write_row.
  rewrite row_get_tabulate by done.
  rewrite lookup_tabulate, (bool_decide_eq_true_2 _ Hk). cbn [default].
  unfold id. by rewrite csv_field_of_cell.
Qed.

Lemma row_get_read_write_absent cols (r : gmap string cell) k :
  k ∉ cols →
  row_get (read_record cols (write_row cols r)) k = Scalar SNaN.
Proof.
  intros Hk. unfold read_record, row_get.
  by rewrite lookup_tabulate, (bool_decide_eq_false_2 _ Hk).
Qed.

(** The rows that [load_bookings] returns are rows as pandas reads them. *)
Lemma load_bookings_rows d bdf :
  load_bookings d = Ok bdf →
  Forall (λ r, ∃ rec, r = read_record (columns bdf) rec) (rows bdf).
Proof.
  unfold load_bookings, read_or_empty.
  destruct (BOOKINGS_FILE d) as [| | |t]; cbn [pd_read_csv]; try done.
  - intros [= <-]. apply Forall_nil_2.
  - intros [= <-]. apply Forall_nil_2.
  - intros [= <-]. cbn [columns rows]. apply Forall_fmap, Forall_forall.
    intros rec _. by exists rec.
Qed.

(** A row as pandas reads it holds NaN outside its columns and is read
    again as it is. *)
Lemma row_get_read_stable hd rec k :
  Scalar (csv_of_cell (row_get (read_record hd rec) k))
    = row_get (read_record hd rec) k.
Proof.
  unfold read_record, row_get. rewrite lookup_tabulate.
  case_bool_decide; [|done].
  change (Scalar (csv_field (csv_field (default SNaN (rec !! k))))
          = Scalar (csv_field (default SNaN (rec !! k)))).
  by rewrite csv_field_idemp.
Qed.


(** *** An added listing read back *)

Lemma row_get_dict (d : list (string * cell)) k v :
  NoDup d.*1 → (k, v) ∈ d → row_get (list_to_map d) k = v.
Proof.
  intros Hnd Hin. unfold row_get.
  by rewrite (elem_of_list_to_map_1 _ k v).
Qed.

Lemma new_hoarding_keys uuid4 w : NoDup (new_hoarding uuid4 w).*1.
Proof.
  unfold new_hoarding. cbn [fmap list_fmap fst].
  apply (bool_decide_unpack _). vm_compute. exact I.
Qed.

Lemma reindex_tabulate cols (g : string → cell) :
  reindex cols (tabulate cols g) = tabulate cols g.
Proof.
  apply map_eq. intros k. rewrite lookup_reindex, lookup_tabulate.
  by case_bool_decide.
Qed.

(** The cell that is loaded from the field written for [v] in column [k]
    of a row that [save_data] saved. *)
Lemma reload_cell hd (x : gmap string cell) k :
  optional_columns ⊆ hd → k ∈ hd → k ≠ "images" →
  row_get
    (tabulate hd
       (loaded_cell
          (write_row hd
             (<["images" := saved_cell "images" (row_get x "images")]> x)))) k
  = cell_of_field k (csv_of_cell (row_get x k)).
Proof.
  intros Hsub Hk Hne. rewrite row_get_tabulate by done.
  unfold loaded_cell, read_field, write_row.
  rewrite lookup_tabulate, (bool_decide_eq_true_2 _ Hk). cbn [default].
  unfold id. rewrite csv_field_of_cell. by rewrite row_get_insert_ne.
Qed.

Lemma reload_images hd (x : gmap string cell) l :
  "images" ∈ hd →
  row_get x "images" = CList l →
  Forall (λ x, storable x = true) l →
  row_get
    (tabulate hd
       (loaded_cell
          (write_row hd
             (<["images" := saved_cell "images" (row_get x "images")]> x))))
    "images"
  = CList l.
Proof.
  intros Hk Hx Hl. rewrite row_get_tabulate by done.
  unfold loaded_cell, read_field, write_row.
  rewrite lookup_tabulate, (bool_decide_eq_true_2 _ Hk). cbn [default].
  unfold id. rewrite csv_field_of_cell, row_get_insert_eq, Hx.
  rewrite saved_images_list. cbn [csv_of_cell].
  unfold cell_of_field. change (String.eqb "images" "images") with true.
  cbv iota. by rewrite images_reload.
Qed.


(** *** A listing of another district *)

(** X16: "Edit Existing" raises [ValueError] as soon as the listing that
    the option names is of a district that is not in [DISTRICTS] (or whose
    district is not text): [DISTRICTS.index] finds no position for the
    select box of the form, and nothing is stored. *)
Theorem edit_unknown_district w df d j (r : gmap string cell) :
  hoarding_columns ⊆ columns df →
  rows df !! j = Some r →
  first_true ((λ r, eq_str (row_get r "id") (hoarding_id_of (selected w)))
                <$> rows df) = Some j →
  (∀ s, row_get r "district" = Scalar (SStr s) → s ∉ DISTRICTS) →
  edit_existing w df d = Raise ValueError.
Proof.
  intros Hsub Hj Hfirst Hdist. unfold edit_existing.
  assert (He : frame_empty df = false).
  { assert (Hid : "id" ∈ columns df) by by apply (hoarding_column df _ Hsub).
    unfold frame_empty. destruct (columns df) as [|c cs].
    - by apply elem_of_nil in Hid.
    - by destruct (rows df). }
  rewrite He.
  destruct (hoarding_list_ok df) as [labels ->];
    [by apply (hoarding_column df _ Hsub)..|].
  rewrite bind_ok, id_mask_ok by (by apply (hoarding_column df _ Hsub)).
  rewrite bind_ok.
  destruct (select_first
              ((λ r, eq_str (row_get r "id") (hoarding_id_of (selected w)))
                 <$> rows df) (rows df) j r) as [rest ->];
    [by rewrite length_fmap|done|done|].
  rewrite bind_ok.
  rewrite !getitem_ok by (by apply (hoarding_column df _ Hsub)).
  rewrite !bind_ok.
  assert (Hidx : district_index (row_get r "district") = Raise ValueError).
  { unfold district_index, DISTRICTS. cbn [fmap list_fmap first_true].
    destruct (row_get r "district") as [[s| | |]|l] eqn:Er; try done.
    cbn [eq_str]. specialize (Hdist s eq_refl).
    destruct (String.eqb_spec s "Raipur") as [->|_].
    { exfalso. apply Hdist. unfold DISTRICTS. by left. }
    destruct (String.eqb_spec s "Durg") as [->|_]; [|done].
    exfalso. apply Hdist. unfold DISTRICTS. right. by left. }
  by rewrite Hidx.
Qed.

End Properties.

(** ** The operations on the sample data *)

Import IntRuntime.
Local Open Scope string_scope.
Local Open Scope list_scope.

Lemma sample_loaded : load_data Sample.files = Ok Sample.loaded.
Proof. evaluate. Qed.

(** C5: on the sample listings the filters district "Raipur" and
    availability "Available" show the first listing, and adding the size
    filter "10x", which the first listing matches, raises AttributeError
    in [apply_filters] and so in [main]. *)
Theorem size_filter_raises_on_sample :
  apply_filters Sample.loaded "Raipur" "Available" ""
    = Ok {| columns := hoarding_columns; rows := [Sample.row1] |} ∧
  apply_filters Sample.loaded "Raipur" "Available" "10x"
    = Raise AttributeError ∧
  main {| default_operation := None; selected_hoarding_for_booking := None |}
       (ViewHoardings "Raipur" "Available" "10x" None) Sample.files
    = Raise AttributeError.
Proof. split; [|split]; evaluate. Qed.


Lemma is_bookings_readable : BOOKINGS_FILE Sample.files ≠ Malformed.
Proof. discriminate. Qed.

Lemma booking_created_witness :
  ∃ bdf,
    load_bookings Sample.files = Ok bdf ∧
    booking_form "b-1" (Scalar (SStr "no-such-listing")) Sample.booking
                 Sample.files =
      Ok ({| DATA_FILE := DATA_FILE Sample.files;
             BOOKINGS_FILE :=
               to_csv (pd_concat bdf
                         (frame_of_dict
                            (new_booking "b-1" (Scalar (SStr "no-such-listing"))
                                         Sample.booking))) |},
          [st_success "Booking created successfully!"; st_balloons]).
Proof.
  destruct (booking_created "b-1" (Scalar (SStr "no-such-listing"))
              Sample.booking Sample.files)
    as (bdf & Hl & Hb & _);
    [reflexivity|discriminate|discriminate|discriminate|discriminate
    |reflexivity|].
  exists bdf. split; [exact Hl|exact Hb].
Defined.

Lemma booking_rejected_witness :
  ∃ msg,
    msg ∈ ["Please fill all required fields.";
           "End date cannot be before start date."] ∧
    booking_form "b-1" (Scalar (SStr "h1")) Sample.booking_backwards
                 Sample.files = Ok (Sample.files, [st_error msg]).
Proof.
  apply (booking_rejected "b-1" (Scalar (SStr "h1")) Sample.booking_backwards
           Sample.files); [reflexivity|discriminate|].
  right; right; right. reflexivity.
Defined.

Lemma load_fresh_store_witness :
  (load_data {| DATA_FILE := Absent; BOOKINGS_FILE := Malformed |}
     = Ok (empty_frame hoarding_columns) ∧
   rows (empty_frame hoarding_columns) = []) ∧
  (load_bookings {| DATA_FILE := Malformed; BOOKINGS_FILE := Absent |}
     = Ok (empty_frame booking_columns) ∧
   rows (empty_frame booking_columns) = []).
Proof. apply (load_fresh_store Absent Malformed). left. reflexivity. Defined.

Lemma sample_images_text :
  Forall (λ rec, images_text rec = true) (records Sample.listings).
Proof. repeat constructor. Qed.

Lemma sample_optional_columns : optional_columns ⊆ header Sample.listings.
Proof.
  apply (bool_decide_unpack _). vm_compute. exact I.
Qed.


Lemma price_unparseable_absent_witness :
  parse_number "abc" = None ∧
  ∃ df r,
    load_data Sample.files = Ok df ∧
    rows df !! 0 = Some r ∧
    row_get r "price" = Scalar SNaN ∧
    price_text (row_get r "price") = "N/A".
Proof.
  split; [reflexivity|].
  destruct (price_unparseable_absent Sample.listings Absent 0 Sample.listing1
              "abc" sample_images_text)
    as (_ & df & r & Hl & Hr & Hp & Ht & _).
  - evaluate.
  - reflexivity.
  - evaluate.
  - reflexivity.
  - exists df, r. repeat split; assumption.
Defined.


Lemma sample_edit_ready :
  edit_ready Sample.edit Sample.loaded 0 Sample.row1 ["x.jpg"].
Proof.
  split; [by intros x Hx|].
  split.
  { constructor; [exists ["x.jpg"]; evaluate|].
    constructor; [exists ["p.png"; "q.png"]; evaluate|]. constructor. }
  split; [reflexivity|]. split; [evaluate|].
  split; [exists 0; evaluate|]. split; [exists 0%Z; evaluate|].
  split; [evaluate|reflexivity].
Qed.

Lemma update_appends_images_witness :
  ∃ r_u r_s,
    rows (updated_frame Sample.edit Sample.loaded 0 ["x.jpg"]) !! 0
      = Some r_u ∧
    row_get r_u "images" = CList ["x.jpg"; "a.jpg"; "b.jpg"] ∧
    rows (saved_frame (updated_frame Sample.edit Sample.loaded 0 ["x.jpg"]))
      !! 0 = Some r_s ∧
    row_get r_s "images" = Scalar (SStr "x.jpg|a.jpg|b.jpg") ∧
    images_of_field (Scalar (csv_of_cell (row_get r_s "images")))
      = Ok (CList ["x.jpg"; "a.jpg"; "b.jpg"]).
Proof.
  destruct (update_appends_images Sample.edit Sample.loaded Sample.files 0
              Sample.row1 ["x.jpg"] sample_edit_ready)
    as (r_u & r_s & _ & Hu & Hi & Hs & Hj & Hr).
  exists r_u, r_s. split; [exact Hu|]. split; [exact Hi|].
  split; [exact Hs|]. split; [exact Hj|]. apply Hr.
  repeat constructor.
Defined.


(** ** The further properties on the sample data *)

Lemma apply_filters_no_size_witness :
  apply_filters Sample.loaded "Raipur" "Available" "" =
    Ok {| columns := hoarding_columns; rows := [Sample.row1] |}.
Proof.
  rewrite (apply_filters_no_size Sample.loaded "Raipur" "Available");
    [|evaluate|evaluate].
  evaluate.
Defined.

Lemma apply_filters_size_raises_witness :
  apply_filters Sample.loaded "All" "All" "10x" = Raise AttributeError.
Proof.
  apply (apply_filters_size_raises Sample.loaded "All" "All" "10x").
  discriminate.
Defined.

Lemma loaded_frame_typed_witness :
  optional_columns ⊆ columns Sample.loaded ∧
  Forall (λ r, ∃ l, row_get r "images" = CList l) (rows Sample.loaded).
Proof.
  destruct (loaded_frame_typed Sample.files Sample.loaded sample_loaded)
    as (Hc & Hi & _).
  split; [exact Hc|exact Hi].
Defined.

Lemma sample_old_images_text :
  Forall (λ rec, images_text rec = true) (records Sample.old_listings).
Proof. repeat constructor. Qed.

Lemma missing_column_defaulted_witness :
  ∃ df,
    load_data Sample.old_files = Ok df ∧
    "landmark" ∈ columns df ∧
    length (rows df) = 2 ∧
    Forall (λ r, row_get r "landmark" = Scalar (SStr "")) (rows df).
Proof.
  destruct (missing_column_defaulted Sample.old_listings Absent "landmark"
              sample_old_images_text)
    as (df & Hl & Hc & Hn & Hr).
  - evaluate.
  - evaluate.
  - exists df. split; [exact Hl|]. split; [exact Hc|]. split; [exact Hn|].
    exact Hr.
Defined.

Lemma images_not_text_raises_witness :
  load_data {| DATA_FILE := Table Sample.numbered_images;
               BOOKINGS_FILE := Absent |} = Raise AttributeError.
Proof.
  eapply (images_not_text_raises Sample.numbered_images Absent).
  - evaluate.
  - left.
  - reflexivity.
Defined.

Lemma delimiter_splits_reference_witness :
  field_of_images (CList ["a|b"]) = Ok (Scalar (SStr "a|b")) ∧
  images_of_field (Scalar (csv_field (SStr "a|b"))) = Ok (CList ["a"; "b"]).
Proof.
  apply (delimiter_splits_reference "a" "b"); reflexivity.
Defined.

Lemma same_day_booking_accepted_witness :
  ∃ bdf,
    load_bookings Sample.files = Ok bdf ∧
    booking_form "b-1" (Scalar (SStr "h1")) Sample.booking_of_a_day
                 Sample.files =
      Ok (save_bookings
            (pd_concat bdf
               (frame_of_dict
                  (new_booking "b-1" (Scalar (SStr "h1"))
                               Sample.booking_of_a_day)))
            Sample.files,
          [st_success "Booking created successfully!"; st_balloons]).
Proof.
  apply (same_day_booking_accepted "b-1" (Scalar (SStr "h1"))
           Sample.booking_of_a_day Sample.files);
    [reflexivity|discriminate|discriminate|discriminate|discriminate
    |reflexivity].
Defined.

Lemma main_writes_its_file_witness :
  match main Sample.booking_session (Bookings "b-1" Sample.booking)
             Sample.files with
  | Ok p => DATA_FILE (files p) = DATA_FILE Sample.files
  | Raise _ => False
  end.
Proof.
  pose proof (main_writes_its_file Sample.booking_session
                (Bookings "b-1" Sample.booking) Sample.files) as Hm.
  assert (Hok : match main Sample.booking_session
                           (Bookings "b-1" Sample.booking) Sample.files with
                | Ok _ => True
                | Raise _ => False
                end) by (vm_compute; exact I).
  destruct (main Sample.booking_session (Bookings "b-1" Sample.booking)
                 Sample.files) as [p|e]; [exact (Hm p eq_refl)|exact Hok].
Defined.

Lemma view_without_listings_witness :
  main {| default_operation := None; selected_hoarding_for_booking := None |}
       (ViewHoardings "Raipur" "Available" "10x" None)
       {| DATA_FILE := Blank; BOOKINGS_FILE := Absent |} =
    Ok {| session := {| default_operation := None;
                        selected_hoarding_for_booking := None |};
          files := {| DATA_FILE := Blank; BOOKINGS_FILE := Absent |};
          cards := [];
          notices := [st_warning "No hoardings available in database"] |}.
Proof.
  apply (view_without_listings
           {| default_operation := None;
              selected_hoarding_for_booking := None |}
           "Raipur" "Available" "10x" None
           {| DATA_FILE := Blank; BOOKINGS_FILE := Absent |}).
  - right. left. reflexivity.
  - discriminate.
  - intros o Ho. discriminate Ho.
Defined.


Lemma sample_unnamed_first :
  row_get (<["id" := Scalar (SNum 1%Z)]> Sample.row1) "id"
    = Scalar (SNum 1%Z).
Proof. evaluate. Qed.

Lemma sample_unnamed_second :
  row_get (<["id" := Scalar (SStr "a|b")]> Sample.row2) "id"
    = Scalar (SStr "a|b").
Proof. evaluate. Qed.

Lemma edit_needs_plain_ids_witness :
  edit_existing Sample.edit Sample.unnamed Sample.files = Raise IndexError.
Proof.
  apply (edit_needs_plain_ids Sample.edit Sample.unnamed Sample.files);
    [reflexivity|evaluate|evaluate|evaluate|].
  constructor; [|constructor; [|constructor]].
  - intros s Hs. rewrite sample_unnamed_first in Hs. discriminate Hs.
  - intros s Hs. rewrite sample_unnamed_second in Hs. injection Hs as <-.
    left. reflexivity.
Defined.

Lemma sample_booked : load_bookings Sample.booked_files = Ok Sample.booked.
Proof. reflexivity. Qed.


Lemma sample_hoarding_columns : hoarding_columns ⊆ header Sample.listings.
Proof. by intros x Hx. Qed.


Lemma edit_unknown_district_witness :
  edit_existing Sample.edit Sample.elsewhere Sample.files = Raise ValueError.
Proof.
  apply (edit_unknown_district Sample.edit Sample.elsewhere Sample.files 0
           (<["district" := Scalar (SStr "Bilaspur")]> Sample.row1)).
  - by intros x Hx.
  - reflexivity.
  - evaluate.
  - intros s Hs.
    assert (Hd : row_get (<["district" := Scalar (SStr "Bilaspur")]> Sample.row1)
                         "district" = Scalar (SStr "Bilaspur")) by evaluate.
    rewrite Hd in Hs. injection Hs as <-.
    apply (bool_decide_unpack _). vm_compute. exact I.
Defined.
